(** * vue-declassify: the class-to-object transform of [src/operations/vue_object.ts]

    A shallow embedding of the synthesis of a [Vue.extend({...})] component
    from a decorated component class, and the properties of it that the
    specification states.

    Layout of the development:
    - [ts]         the compiler nodes that [ts.factory] builds;
    - [morph]      the ts-morph wrappers the code reads from, and the source file;
    - [imports]    the import ledger ([./imports], modelled from the spec);
    - [vue_class]  the class extractor ([./vue_class], modelled from the spec);
    - [vue_object] the code of [vue_object.ts], function by function;
    - [index]      the pipeline driver ([./index], modelled from the spec);
    - the theorems. *)

From Stdlib Require Import String Ascii List Bool Arith Lia.
Import ListNotations.
Local Open Scope list_scope.
Local Open Scope string_scope.

(* ===================================================================== *)
(** ** JavaScript strings and truthiness *)
(* ===================================================================== *)

Module js.

(** The line feed, ['\n']. *)
Definition LF : ascii := Ascii.ascii_of_nat 10.
Definition nl : string := String LF EmptyString.

(** [s.split(sep)] for a one-character separator: never the empty list,
    the empty string splits into one empty piece. *)
Fixpoint split (sep : ascii) (s : string) : list string :=
  match s with
  | EmptyString => [EmptyString]
  | String c rest =>
      if Ascii.eqb c sep then EmptyString :: split sep rest
      else match split sep rest with
           | [] => [String c EmptyString]
           | piece :: pieces => String c piece :: pieces
           end
  end.

(** [s.includes(c)] for a character. *)
Fixpoint includes (c : ascii) (s : string) : bool :=
  match s with
  | EmptyString => false
  | String c' rest => Ascii.eqb c' c || includes c rest
  end.

(** [xs.join(sep)]. *)
Definition join (sep : string) (xs : list string) : string :=
  String.concat sep xs.

(** Truthiness of a [string | undefined]: [undefined] and [''] are falsy. *)
Definition truthy (o : option string) : bool :=
  match o with
  | Some s => negb (String.eqb s EmptyString)
  | None => false
  end.

End js.

(* ===================================================================== *)
(** ** Compiler nodes, as [ts.factory] builds them *)
(* ===================================================================== *)

Module ts.

(** [SyntaxKind] of a synthesized comment. *)
Inductive CommentKind := SingleLineCommentTrivia | MultiLineCommentTrivia.

(** A comment attached by [ts.addSyntheticLeadingComment]. *)
Record SynthesizedComment := mkComment {
  kind : CommentKind;
  text : string;
  hasTrailingNewLine : bool
}.

(** The expressions and object-literal members the transform builds or
    passes along.  [SourceExpression] and [SourceElement] are nodes parsed
    from the file, kept by their source text. *)
#[warnings="-register-all"]
Inductive Expression :=
| Identifier (escapedText : string)
| StringLiteral (value : string) (isSingleQuote : bool)
| FalseKeyword
| ObjectLiteralExpression (properties : list ObjectLiteralElementLike) (multiLine : bool)
| CallExpression (callee : Expression) (arguments : list Expression)
| SourceExpression (sourceText : string)
with ObjectLiteralElementLike :=
| PropertyAssignment (name : string) (initializer : Expression)
                     (leadingComments : list SynthesizedComment)
| MethodDeclaration (name : string) (parameters : list string) (body : list Statement)
| SourceElement (name : string) (sourceText : string)
with Statement :=
| ReturnStatement (expression : Expression).

(** The property name of an object-literal member. *)
Definition elementName (e : ObjectLiteralElementLike) : string :=
  match e with
  | PropertyAssignment n _ _ => n
  | MethodDeclaration n _ _ => n
  | SourceElement n _ => n
  end.

Definition elementComments (e : ObjectLiteralElementLike) : list SynthesizedComment :=
  match e with
  | PropertyAssignment _ _ cs => cs
  | _ => []
  end.

Definition elementInitializer (e : ObjectLiteralElementLike) : option Expression :=
  match e with
  | PropertyAssignment _ i _ => Some i
  | _ => None
  end.

(** [ts.addSyntheticLeadingComment(node, kind, text, hasTrailingNewLine)]:
    the comment is appended to the node's leading comments and the node is
    returned.  The code documents property assignments only, the one kind of
    member that carries comments here. *)
Definition addSyntheticLeadingComment (target : ObjectLiteralElementLike)
    (k : CommentKind) (t : string) (nlAfter : bool) : ObjectLiteralElementLike :=
  match target with
  | PropertyAssignment n i cs => PropertyAssignment n i (cs ++ [mkComment k t nlAfter])%list
  | other => other
  end.

(** [const f = ts.factory]. *)
Module f.
Definition createIdentifier (t : string) : Expression := Identifier t.
Definition createStringLiteral (t : string) (single : bool) : Expression :=
  StringLiteral t single.
Definition createFalse : Expression := FalseKeyword.
Definition createPropertyAssignment (n : string) (i : Expression)
  : ObjectLiteralElementLike := PropertyAssignment n i [].
Definition createObjectLiteralExpression (ps : list ObjectLiteralElementLike)
    (multiLine : bool) : Expression := ObjectLiteralExpression ps multiLine.
Definition createReturnStatement (e : Expression) : Statement := ReturnStatement e.
Definition createBlock (ss : list Statement) (multiLine : bool) : list Statement := ss.
Definition createMethodDeclaration (n : string) (params : list string)
    (body : list Statement) : ObjectLiteralElementLike := MethodDeclaration n params body.
Definition createCallExpression (callee : Expression) (args : list Expression)
  : Expression := CallExpression callee args.
End f.

End ts.

(* ===================================================================== *)
(** ** ts-morph wrappers and the source file *)
(* ===================================================================== *)

Module morph.

(** An [Expression] or [TypeNode] wrapper: the code only reads its text. *)
Record Node := mkNode { getText : string }.

(** A JSDoc block: [compilerNode.comment] is its description text (absent
    when the block holds tags only), [getFullText()] the block as written. *)
Record JSDoc := mkJSDoc {
  comment : option string;
  getFullText : string
}.

(** A member of an object literal read from the file ([PropertyAssignment]
    in the code's types). *)
Module PropertyAssignment.
Record t := mk {
  compilerNode : ts.ObjectLiteralElementLike;
  getInitializer : option Node
}.
Definition getName (p : t) : string := ts.elementName (compilerNode p).
End PropertyAssignment.

(** The type the checker gives a field, by the three tests the code makes. *)
Inductive Type_ := TyString | TyNumber | TyBoolean | TyOther.

Definition isString (t : Type_) : bool :=
  match t with TyString => true | _ => false end.
Definition isNumber (t : Type_) : bool :=
  match t with TyNumber => true | _ => false end.
Definition isBoolean (t : Type_) : bool :=
  match t with TyBoolean => true | _ => false end.

Inductive DecoratorArgument :=
| ObjectLiteralArgument (properties : list PropertyAssignment.t)
| OtherArgument (sourceText : string).

Module Decorator.
Record t := mk {
  getName : string;
  getArguments : list DecoratorArgument
}.
End Decorator.

(** A field of a class. *)
Module PropertyDeclaration.
Record t := mk {
  getName : string;
  getType : Type_;
  getTypeNode : option Node;
  getInitializer : option Node;
  getJsDocs : list JSDoc;
  getDecorators : list Decorator.t
}.
End PropertyDeclaration.

(** A class declaration as it stands in the file. *)
Record ClassNode := mkClass {
  className : option string;
  classJsDocs : list JSDoc;
  classDecorators : list Decorator.t;
  classProperties : list PropertyDeclaration.t;
  classOtherMembers : list string
}.

(** What [source.addExportAssignment] receives; [expression] is text, to be
    parsed again. *)
Record ExportAssignmentStructure := mkExport {
  expression : string;
  isExportEquals : bool;
  leadingTrivia : string
}.

Inductive Statement :=
| ClassStatement (c : ClassNode)
| ExportAssignment (e : ExportAssignmentStructure)
| OtherStatement (sourceText : string).

Record ImportDeclaration := mkImport {
  moduleSpecifier : string;
  defaultImport : option string;
  namedImports : list string
}.

(** Whether the text is as the author wrote it or in the fixed style that
    [formatText] applies. *)
Inductive Layout := AsWritten | Formatted.

Record SourceFile := mkSource {
  importDeclarations : list ImportDeclaration;
  statements : list Statement;
  layout : Layout
}.

(** The wrapper of a class declaration: the node and where it stands
    among the statements of its file. *)
Module ClassDeclaration.
Record t := mk {
  getChildIndex : nat;
  node : ClassNode
}.
Definition getName (c : t) : option string := className (node c).
Definition getJsDocs (c : t) : list JSDoc := classJsDocs (node c).
End ClassDeclaration.

Fixpoint removeAt {A} (i : nat) (l : list A) : list A :=
  match i, l with
  | _, [] => []
  | O, _ :: tl => tl
  | S j, x :: tl => x :: removeAt j tl
  end.

(** [declaration.remove()]. *)
Definition remove (c : ClassDeclaration.t) (s : SourceFile) : SourceFile :=
  mkSource (importDeclarations s)
           (removeAt (ClassDeclaration.getChildIndex c) (statements s))
           (layout s).

(** [source.addExportAssignment(structure)]: the statement goes last. *)
Definition addExportAssignment (e : ExportAssignmentStructure) (s : SourceFile)
  : SourceFile :=
  mkSource (importDeclarations s) (statements s ++ [ExportAssignment e])%list (layout s).

(** [source.formatText()]. *)
Definition formatText (s : SourceFile) : SourceFile :=
  mkSource (importDeclarations s) (statements s) Formatted.

End morph.

(* ===================================================================== *)
(** ** Computations over the file that may throw *)
(* ===================================================================== *)

(** The exceptions of the [...OrThrow] lookups. *)
Inductive Exception :=
| ExpectedName
| ExpectedTypeNode
| ExpectedInitializer.

Inductive Completion (A : Type) :=
| Returned (a : A)
| Thrown (e : Exception).
Arguments Returned {A} a.
Arguments Thrown {A} e.

(** A computation reads and mutates the source file, and returns or throws;
    what it did to the file before throwing stays done. *)
Definition M (A : Type) : Type := morph.SourceFile -> Completion A * morph.SourceFile.

Definition ret {A} (a : A) : M A := fun s => (Returned a, s).
Definition throw {A} (e : Exception) : M A := fun s => (Thrown e, s).
Definition bind {A B} (m : M A) (k : A -> M B) : M B :=
  fun s => match m s with
           | (Returned a, s') => k a s'
           | (Thrown e, s') => (Thrown e, s')
           end.
Definition modify (g : morph.SourceFile -> morph.SourceFile) : M unit :=
  fun s => (Returned tt, g s).
Definition orThrow {A} (e : Exception) (o : option A) : M A :=
  match o with
  | Some a => ret a
  | None => throw e
  end.

Declare Scope m_scope.
Delimit Scope m_scope with m.
Notation "x <- m ;; k" := (bind m (fun x => k))
  (at level 61, m at next level, right associativity) : m_scope.
Notation "m ;;; k" := (bind m (fun _ => k))
  (at level 61, right associativity) : m_scope.
Local Open Scope m_scope.

(** [xs.map(x => g(x))] where [g] may throw or touch the file, left to right. *)
Fixpoint mapM {A B} (g : A -> M B) (xs : list A) : M (list B) :=
  match xs with
  | [] => ret []
  | x :: tl => y <- g x ;; ys <- mapM g tl ;; ret (y :: ys)
  end.

(* ===================================================================== *)
(** ** The import ledger ([./imports]) *)
(* ===================================================================== *)

Module imports.
Import morph.

(** Modelled from the spec: the third argument of [imports.ensure],
    [{default?: name, named?: names[]}]. *)
Record Bindings := mkBindings {
  default : option string;
  named : list string
}.

(** Modelled from the spec: the import statement is sourced from [m]. *)
Definition fromModule (m : string) (d : ImportDeclaration) : bool :=
  String.eqb (moduleSpecifier d) m.

(** Modelled from the spec: the import statement binds the default export
    of [m]. *)
Definition isDefaultImportOf (m : string) (d : ImportDeclaration) : bool :=
  fromModule m d && match defaultImport d with Some _ => true | None => false end.

(** Modelled from the spec: the import statement binds [n] of [m]. *)
Definition isNamedImportOf (m n : string) (d : ImportDeclaration) : bool :=
  fromModule m d && existsb (String.eqb n) (namedImports d).

(** Modelled from the spec: how many import statements bind the default
    export of [m]. *)
Definition defaultImportCount (m : string) (ds : list ImportDeclaration) : nat :=
  List.length (filter (isDefaultImportOf m) ds).

(** Modelled from the spec: some import statement binds [n] of [m]. *)
Definition hasNamedImport (m n : string) (ds : list ImportDeclaration) : bool :=
  existsb (isNamedImportOf m n) ds.

(** Modelled from the spec: the default binding goes on the first import
    statement of [m], or on a new one. *)
Fixpoint addDefault (m name : string) (ds : list ImportDeclaration)
  : list ImportDeclaration :=
  match ds with
  | [] => [mkImport m (Some name) []]
  | d :: tl =>
      if fromModule m d
      then mkImport (moduleSpecifier d) (Some name) (namedImports d) :: tl
      else d :: addDefault m name tl
  end.

(** Modelled from the spec: the named binding goes on the first import
    statement of [m], or on a new one. *)
Fixpoint addNamed (m n : string) (ds : list ImportDeclaration)
  : list ImportDeclaration :=
  match ds with
  | [] => [mkImport m None [n]]
  | d :: tl =>
      if fromModule m d
      then mkImport (moduleSpecifier d) (defaultImport d) (namedImports d ++ [n])%list :: tl
      else d :: addNamed m n tl
  end.

(** Modelled from the spec: "without duplicating an existing default". *)
Definition ensureDefault (m name : string) (ds : list ImportDeclaration) :=
  if existsb (isDefaultImportOf m) ds then ds else addDefault m name ds.

(** Modelled from the spec: "without duplicating an existing ... named
    binding". *)
Definition ensureNamed (m : string) (ds : list ImportDeclaration) (n : string) :=
  if hasNamedImport m n ds then ds else addNamed m n ds.

(** Modelled from the spec: the requested default binding, then each
    requested named binding. *)
Definition ensureBindings (m : string) (b : Bindings) (ds : list ImportDeclaration) :=
  fold_left (ensureNamed m) (named b)
    (match default b with
     | Some name => ensureDefault m name ds
     | None => ds
     end).

(** The file with its import statements rewritten. *)
Definition withImports (g : list ImportDeclaration -> list ImportDeclaration)
    (s : SourceFile) : SourceFile :=
  mkSource (g (importDeclarations s)) (statements s) (layout s).

(** Modelled from the spec: [imports.ensure] of [./imports], which is not
    among the sources.  "Guarantees the file's import statements include the
    requested bindings from [moduleName] without duplicating an existing
    default or named binding; it never removes unrelated imports". *)
Definition ensure (m : string) (b : Bindings) : M unit :=
  modify (withImports (ensureBindings m b)).

(** Modelled from the spec: the two decorator-convention modules, by the
    names the test suite imports them under. *)
Definition decoratorModules : list string :=
  ["vue-class-component"; "vue-property-decorator"].

(** Modelled from the spec: the import statement is sourced from a
    decorator-convention module. *)
Definition fromDecoratorModule (d : ImportDeclaration) : bool :=
  existsb (String.eqb (moduleSpecifier d)) decoratorModules.

(** Modelled from the spec: "removes all import statements sourced from a
    set of known decorator-convention modules". *)
Definition removeDecoratorImports (ds : list ImportDeclaration) :=
  filter (fun d => negb (fromDecoratorModule d)) ds.

(** Modelled from the spec: the companion operation of the import ledger,
    not among the sources.  It "removes all import statements sourced from a
    set of known decorator-convention modules, collapsing them into a single
    default import from the base framework module (added only if no default
    import from that module already exists)". *)
Definition collapse : M unit :=
  modify (withImports removeDecoratorImports) ;;;
  ensure "vue" (mkBindings (Some "Vue") []).

End imports.

(* ===================================================================== *)
(** ** The class extractor ([./vue_class]) *)
(* ===================================================================== *)

Module vue_class.
Import morph.

(** An input field, as [vue_object.ts] types it:
    [{ declaration, default?, required? }]. *)
Module ClassProp.
Record t := mk {
  declaration : PropertyDeclaration.t;
  default : option PropertyAssignment.t;
  required : option PropertyAssignment.t
}.
End ClassProp.

Record DecoratorConfig := mkConfig {
  properties : list PropertyAssignment.t
}.

(** What [extract] returns when it finds a component, by the fields
    [vue_object.ts] reads. *)
Module Vue.
Record t := mk {
  declaration : ClassDeclaration.t;
  decorator : DecoratorConfig;
  props : list ClassProp.t;
  data : list PropertyDeclaration.t
}.
End Vue.

(** Modelled from the spec: the component decorator, "bare or called with
    an object-literal argument". *)
Definition isComponentDecorator (d : Decorator.t) : bool :=
  String.eqb (Decorator.getName d) "Component" &&
  match Decorator.getArguments d with
  | [] => true
  | [ObjectLiteralArgument _] => true
  | _ => false
  end.

(** Modelled from the spec: the input-field decorator. *)
Definition isPropDecorator (d : Decorator.t) : bool :=
  String.eqb (Decorator.getName d) "Prop".

(** Modelled from the spec: the properties of the decorator's
    object-literal argument, none for a bare decorator. *)
Definition objectLiteralProperties (d : Decorator.t) : list PropertyAssignment.t :=
  match Decorator.getArguments d with
  | ObjectLiteralArgument ps :: _ => ps
  | _ => []
  end.

(** Modelled from the spec: the first property of that name. *)
Definition getProperty (name : string) (ps : list PropertyAssignment.t)
  : option PropertyAssignment.t :=
  find (fun p => String.eqb (PropertyAssignment.getName p) name) ps.

(** Modelled from the spec: a class "carrying the component decorator". *)
Definition isComponentClass (c : ClassNode) : bool :=
  existsb isComponentDecorator (classDecorators c).

(** Modelled from the spec: a top-level declaration that is such a class. *)
Definition isComponentStatement (st : Statement) : bool :=
  match st with
  | ClassStatement c => isComponentClass c
  | _ => false
  end.

(** Modelled from the spec: the first statement, counting from [i], that is
    a component class. *)
Fixpoint findComponent (i : nat) (ss : list Statement) : option ClassDeclaration.t :=
  match ss with
  | [] => None
  | ClassStatement c :: tl =>
      if isComponentClass c then Some (ClassDeclaration.mk i c)
      else findComponent (S i) tl
  | _ :: tl => findComponent (S i) tl
  end.

(** Modelled from the spec: a field "annotated with the input-field
    decorator" gives an input field with the [default] and [required]
    property assignments of the decorator's argument. *)
Definition extractProp (p : PropertyDeclaration.t) : list ClassProp.t :=
  match find isPropDecorator (PropertyDeclaration.getDecorators p) with
  | Some d =>
      [ClassProp.mk p (getProperty "default" (objectLiteralProperties d))
                 (getProperty "required" (objectLiteralProperties d))]
  | None => []
  end.

(** Modelled from the spec: "otherwise, if the field has an initializer",
    a state field. *)
Definition isStateField (p : PropertyDeclaration.t) : bool :=
  negb (existsb isPropDecorator (PropertyDeclaration.getDecorators p)) &&
  match PropertyDeclaration.getInitializer p with Some _ => true | None => false end.

(** Modelled from the spec: the configuration and the fields of the class
    found. *)
Definition extractClass (c : ClassDeclaration.t) : Vue.t :=
  let n := ClassDeclaration.node c in
  Vue.mk c
    (mkConfig match find isComponentDecorator (classDecorators n) with
              | Some d => objectLiteralProperties d
              | None => []
              end)
    (flat_map extractProp (classProperties n))
    (filter isStateField (classProperties n)).

(** Modelled from the spec: [vue_class.extract] of [./vue_class], which is
    not among the sources.  "Scan top-level declarations for the first class
    carrying the component decorator"; its object-literal argument gives the
    configuration; a field with the input-field decorator is an input field
    with the [default] and [required] entries of that decorator's argument,
    another field with an initializer is a state field, any other field is
    skipped. *)
Definition extract (s : SourceFile) : option Vue.t :=
  option_map extractClass (findComponent 0 (statements s)).

End vue_class.

(* ===================================================================== *)
(** ** [src/operations/vue_object.ts] *)
(* ===================================================================== *)

Module vue_object.
Import morph vue_class.
Import ts.f.

(** [createDocumentation(target, docs)]: the description of the first JSDoc
    block, when truthy, becomes a synthetic leading block comment. *)
Definition createDocumentation (target : ts.ObjectLiteralElementLike)
    (docs : list JSDoc) : ts.ObjectLiteralElementLike :=
  match docs with
  | doc :: _ =>
      match comment doc with
      | Some c =>
          if js.truthy (Some c) then
            ts.addSyntheticLeadingComment target ts.MultiLineCommentTrivia
              ("*" ++ js.nl ++
               js.join js.nl (map (fun line => " * " ++ line) (js.split js.LF c)) ++
               js.nl ++ " ")
              true
          else target
      | None => target
      end
  | [] => target
  end.

Definition classNameToPropName (vue : Vue.t) : M ts.ObjectLiteralElementLike :=
  name <- orThrow ExpectedName (ClassDeclaration.getName (Vue.declaration vue)) ;;
  ret (createPropertyAssignment "name" (createStringLiteral name true)).

Definition classPropTypeToObjectPropType (prop : ClassProp.t)
  : M ts.ObjectLiteralElementLike :=
  let type := PropertyDeclaration.getType (ClassProp.declaration prop) in
  initializer <-
    (if isString type then ret (createIdentifier "String")
     else if isNumber type then ret (createIdentifier "Number")
     else if isBoolean type then ret (createIdentifier "Boolean")
     else
       imports.ensure "vue" (imports.mkBindings None ["PropType"]) ;;;
       type <- orThrow ExpectedTypeNode
                 (PropertyDeclaration.getTypeNode (ClassProp.declaration prop)) ;;
       ret (createIdentifier ("Object as PropType<" ++ getText type ++ ">"))) ;;
  ret (createPropertyAssignment "type" initializer).

Definition classPropOptionsToObjectPropOptions (prop : ClassProp.t)
  : M (list ts.ObjectLiteralElementLike) :=
  match ClassProp.default prop with
  | Some default =>
      value <- orThrow ExpectedInitializer (PropertyAssignment.getInitializer default) ;;
      ret [createPropertyAssignment "default" (createIdentifier (getText value))]
  | None =>
      match ClassProp.required prop with
      | Some required => ret [PropertyAssignment.compilerNode required]
      | None => ret [createPropertyAssignment "required" createFalse]
      end
  end.

Definition classPropToObjectProp (prop : ClassProp.t) : M ts.ObjectLiteralElementLike :=
  type <- classPropTypeToObjectPropType prop ;;
  options <- classPropOptionsToObjectPropOptions prop ;;
  ret (createDocumentation
         (createPropertyAssignment
            (PropertyDeclaration.getName (ClassProp.declaration prop))
            (createObjectLiteralExpression (type :: options) true))
         (PropertyDeclaration.getJsDocs (ClassProp.declaration prop))).

Definition classPropsToObjectProps (vue : Vue.t) : M ts.ObjectLiteralElementLike :=
  entries <- mapM classPropToObjectProp (Vue.props vue) ;;
  ret (createPropertyAssignment "props" (createObjectLiteralExpression entries true)).

(** One turn of the loop of [classDataToObjectData]. *)
Definition dataProperty (declaration : PropertyDeclaration.t)
  : M ts.ObjectLiteralElementLike :=
  value <- orThrow ExpectedInitializer (PropertyDeclaration.getInitializer declaration) ;;
  let initializer :=
    match PropertyDeclaration.getTypeNode declaration with
    | Some type => createIdentifier (getText value ++ " as " ++ getText type)
    | None => createIdentifier (getText value)
    end in
  ret (createDocumentation
         (createPropertyAssignment (PropertyDeclaration.getName declaration) initializer)
         (PropertyDeclaration.getJsDocs declaration)).

Definition classDataToObjectData (vue : Vue.t) : M ts.ObjectLiteralElementLike :=
  properties <- mapM dataProperty (Vue.data vue) ;;
  ret (createMethodDeclaration "data" []
         (createBlock
            [createReturnStatement (createObjectLiteralExpression properties true)]
            true)).

(** The members of the object literal, in the order they are pushed. *)
Definition objectProperties (vue : Vue.t) : M (list ts.ObjectLiteralElementLike) :=
  name <- classNameToPropName vue ;;
  let inherited :=
    map PropertyAssignment.compilerNode (properties (Vue.decorator vue)) in
  props <- (if Nat.ltb 0 (List.length (Vue.props vue))
            then p <- classPropsToObjectProps vue ;; ret [p]
            else ret []) ;;
  data <- (if Nat.ltb 0 (List.length (Vue.data vue))
           then d <- classDataToObjectData vue ;; ret [d]
           else ret []) ;;
  ret ([name] ++ inherited ++ props ++ data)%list.

(** The text saved from the class's first JSDoc block, if any. *)
Definition classDocumentation (vue : Vue.t) : option string :=
  match ClassDeclaration.getJsDocs (Vue.declaration vue) with
  | doc :: _ => Some (getFullText doc)
  | [] => None
  end.

(** What the [leadingTrivia] writer writes. *)
Definition writeLeadingTrivia (documentation : option string) : string :=
  match documentation with
  | Some d => if js.truthy documentation then d ++ js.nl else EmptyString
  | None => EmptyString
  end.

(** [classToObject(source)], over the extractor it calls and over
    [printNode], the printer of ts-morph: the component reaches the file as
    the text the printer writes for it, whatever it keeps of the nodes. *)
Definition classToObject (printNode : ts.Expression -> string)
    (extract : SourceFile -> option Vue.t) : M unit :=
  fun source =>
    match extract source with
    | None => ret tt source
    | Some vue =>
        (properties <- objectProperties vue ;;
         let component :=
           createCallExpression (createIdentifier "Vue.extend")
             [createObjectLiteralExpression properties true] in
         let documentation := classDocumentation vue in
         modify (remove (Vue.declaration vue)) ;;;
         modify (addExportAssignment
                   (mkExport (printNode component) false
                      (writeLeadingTrivia documentation))) ;;;
         modify formatText) source
    end.

End vue_object.

(* ===================================================================== *)
(** ** The pipeline driver ([./index]) *)
(* ===================================================================== *)

Module index.

(** Modelled from the spec: [declassify] of [./index], which is not among
    the sources; the tests call it.  The decorator-convention imports are
    collapsed into the default import of the base framework module, then the
    component class, if there is one, is rewritten ([printNode] is the
    printer [classToObject] calls). *)
Definition declassify (printNode : ts.Expression -> string) : M unit :=
  imports.collapse ;;; vue_object.classToObject printNode vue_class.extract.

End index.

(* ===================================================================== *)
(** ** Source files of the test suite, and a few more *)
(* ===================================================================== *)

Module examples.
Import morph vue_class.

Definition bare (name : string) : Decorator.t := Decorator.mk name [].

Definition called (name : string) (ps : list PropertyAssignment.t) : Decorator.t :=
  Decorator.mk name [ObjectLiteralArgument ps].

(** [key: text] as read from the file. *)
Definition assignment (key text : string) : PropertyAssignment.t :=
  PropertyAssignment.mk
    (ts.PropertyAssignment key (ts.SourceExpression text) [])
    (Some (mkNode text)).

(** The shorthand member [{ key }]. *)
Definition shorthand (key : string) : PropertyAssignment.t :=
  PropertyAssignment.mk (ts.SourceElement key key) None.

Definition decoratorImports : list ImportDeclaration :=
  [ mkImport "vue-class-component" None ["Component"; "Vue"];
    mkImport "vue-property-decorator" None ["Component"; "Prop"; "Vue"] ].

(** 'removes class-based component library imports' *)
Definition onlyDecoratorImports : SourceFile :=
  mkSource decoratorImports [] AsWritten.

(** 'only adds the Vue import if necessary' *)
Definition onlyVueImport : SourceFile :=
  mkSource [mkImport "vue" (Some "Vue") []] [] AsWritten.

(** 'writes the class name as the component name' *)
Definition emptyClass : ClassNode :=
  mkClass (Some "Component") [] [bare "Component"] [] [].

Definition emptyComponent : SourceFile :=
  mkSource [] [ClassStatement emptyClass] AsWritten.

(** 'passes along configuration from the @Component decorator' *)
Definition configuredClass : ClassNode :=
  mkClass (Some "Component") []
    [called "Component" [assignment "components" "{ OtherComponent, }"]] [] [].

Definition configuredComponent : SourceFile :=
  mkSource [] [ClassStatement configuredClass] AsWritten.

(** 'converts @Prop-decorated fields to props' *)
Definition message : PropertyDeclaration.t :=
  PropertyDeclaration.mk "message" TyString (Some (mkNode "string")) None []
    [called "Prop" []].
Definition count : PropertyDeclaration.t :=
  PropertyDeclaration.mk "count" TyNumber (Some (mkNode "number")) None []
    [called "Prop" [assignment "required" "true"]].
Definition response : PropertyDeclaration.t :=
  PropertyDeclaration.mk "response" TyOther (Some (mkNode "Response")) None []
    [called "Prop" []].
Definition onClick : PropertyDeclaration.t :=
  PropertyDeclaration.mk "onClick" TyOther (Some (mkNode "() => Promise<void>")) None []
    [called "Prop" [assignment "default" "() => noop"]].

Definition propsClass : ClassNode :=
  mkClass (Some "Component") [] [bare "Component"]
    [message; count; response; onClick] [].

Definition propsComponent : SourceFile :=
  mkSource [] [ClassStatement propsClass] AsWritten.

(** A documented class with documented state fields:
<<
/** A counter. */
@Component
export default class Counter extends Vue {
  /**
   * How many clicks.
   * Starts at zero.
   */
  clicks: number = 0
  label = 'clicks'
  /** @deprecated */
  old = null
  pending: boolean
}
>> *)
Definition clicks : PropertyDeclaration.t :=
  PropertyDeclaration.mk "clicks" TyNumber (Some (mkNode "number")) (Some (mkNode "0"))
    [mkJSDoc (Some ("How many clicks." ++ js.nl ++ "Starts at zero."))
             ("/**" ++ js.nl ++ "   * How many clicks." ++ js.nl ++
              "   * Starts at zero." ++ js.nl ++ "   */")]
    [].
Definition label : PropertyDeclaration.t :=
  PropertyDeclaration.mk "label" TyString None (Some (mkNode "'clicks'")) [] [].
Definition old : PropertyDeclaration.t :=
  PropertyDeclaration.mk "old" TyOther None (Some (mkNode "null"))
    [mkJSDoc None "/** @deprecated */"] [].
Definition pending : PropertyDeclaration.t :=
  PropertyDeclaration.mk "pending" TyBoolean (Some (mkNode "boolean")) None [] [].

Definition counterClass : ClassNode :=
  mkClass (Some "Counter") [mkJSDoc (Some "A counter.") "/** A counter. */"]
    [bare "Component"] [clicks; label; old; pending] [].

Definition counterComponent : SourceFile :=
  mkSource [mkImport "vue-property-decorator" None ["Component"; "Vue"]]
           [ClassStatement counterClass] AsWritten.

(** A component whose decorator configuration names [name]:
    [@Component({ name: 'Other' }) class Widget extends Vue {}]. *)
Definition renamedClass : ClassNode :=
  mkClass (Some "Widget") [] [called "Component" [assignment "name" "'Other'"]] [] [].

Definition renamedComponent : SourceFile :=
  mkSource [] [ClassStatement renamedClass] AsWritten.

(** Two component classes in one file. *)
Definition firstClass : ClassNode := mkClass (Some "First") [] [bare "Component"] [] [].
Definition secondClass : ClassNode := mkClass (Some "Second") [] [bare "Component"] [] [].

Definition twoComponents : SourceFile :=
  mkSource [mkImport "vue" (Some "Vue") []]
           [ClassStatement firstClass; ClassStatement secondClass] AsWritten.

(** An input field without a type annotation: [@Prop() value]. *)
Definition untyped : PropertyDeclaration.t :=
  PropertyDeclaration.mk "value" TyOther None None [] [called "Prop" []].

(** An anonymous class: [@Component export default class extends Vue {}]. *)
Definition anonymousClass : ClassNode := mkClass None [] [bare "Component"] [] [].

Definition anonymousComponent : SourceFile :=
  mkSource [] [ClassStatement anonymousClass] AsWritten.

(** What the extractor finds in [renamedComponent]. *)
Definition renamedVue : Vue.t :=
  Vue.mk (ClassDeclaration.mk 0 renamedClass)
    (mkConfig [assignment "name" "'Other'"]) [] [].

(** A component with an input field that has no type annotation. *)
Definition untypedClass : ClassNode :=
  mkClass (Some "Component") [] [bare "Component"] [untyped] [].

Definition untypedComponent : SourceFile :=
  mkSource [] [ClassStatement untypedClass] AsWritten.

(** An input field with both options:
    [@Prop({ default: () => noop, required: true }) onClick!: () => Promise<void>]. *)
Definition bothOptions : ClassProp.t :=
  ClassProp.mk onClick (Some (assignment "default" "() => noop"))
                       (Some (assignment "required" "true")).

(** What the extractor finds in [counterComponent]. *)
Definition counterVue : Vue.t :=
  Vue.mk (ClassDeclaration.mk 0 counterClass) (mkConfig []) [] [clicks; label; old].

(** A component with a [props] and a [data] entry in its configuration, an
    input field and a state field. *)
Definition collidingVue : Vue.t :=
  Vue.mk (ClassDeclaration.mk 0 renamedClass)
    (mkConfig [assignment "name" "'Other'"; assignment "props" "{}";
               shorthand "data"])
    [ClassProp.mk message None None] [label].

(** A printer to run the examples with; the theorems hold of every printer.
    It writes a node the factory built on one line, without its comments; of
    a member taken from the file it writes the name, and of an expression
    taken from the file it writes nothing. *)
Fixpoint printer (e : ts.Expression) : string :=
  match e with
  | ts.Identifier t => t
  | ts.StringLiteral v single =>
      let quote := if single then "'" else String (Ascii.ascii_of_nat 34) EmptyString in
      quote ++ v ++ quote
  | ts.FalseKeyword => "false"
  | ts.ObjectLiteralExpression ps _ =>
      "{ " ++ String.concat ", " (map printElement ps) ++ " }"
  | ts.CallExpression callee args =>
      printer callee ++ "(" ++ String.concat ", " (map printer args) ++ ")"
  | ts.SourceExpression _ => EmptyString
  end
with printElement (m : ts.ObjectLiteralElementLike) : string :=
  match m with
  | ts.PropertyAssignment n i _ => n ++ ": " ++ printer i
  | ts.MethodDeclaration n ps body =>
      n ++ "(" ++ String.concat ", " ps ++ ") { "
        ++ String.concat " " (map printStatement body) ++ " }"
  | ts.SourceElement n _ => n
  end
with printStatement (st : ts.Statement) : string :=
  match st with
  | ts.ReturnStatement e => "return " ++ printer e ++ ";"
  end.

End examples.

(* ===================================================================== *)
(** ** What synthesis needs of the extracted component *)
(* ===================================================================== *)

Module preconditions.
Import morph vue_class.

Definition isPrimitive (t : Type_) : bool :=
  isString t || isNumber t || isBoolean t.

Definition isSome {A} (o : option A) : bool :=
  match o with Some _ => true | None => false end.

(** An input field whose type is not string, number or boolean carries a
    type annotation. *)
Definition annotatedUnlessPrimitive (prop : ClassProp.t) : bool :=
  isPrimitive (PropertyDeclaration.getType (ClassProp.declaration prop)) ||
  isSome (PropertyDeclaration.getTypeNode (ClassProp.declaration prop)).

(** A supplied [default] option has an initializer expression. *)
Definition defaultHasInitializer (prop : ClassProp.t) : bool :=
  match ClassProp.default prop with
  | Some d => isSome (PropertyAssignment.getInitializer d)
  | None => true
  end.

Definition propOk (prop : ClassProp.t) : bool :=
  annotatedUnlessPrimitive prop && defaultHasInitializer prop.

(** A state field has an initializer. *)
Definition dataOk (d : PropertyDeclaration.t) : bool :=
  isSome (PropertyDeclaration.getInitializer d).

(** The component class has a name. *)
Definition named (vue : Vue.t) : bool :=
  isSome (ClassDeclaration.getName (Vue.declaration vue)).

Definition synthesizable (vue : Vue.t) : bool :=
  named vue && forallb propOk (Vue.props vue) && forallb dataOk (Vue.data vue).

(** The [required] option the extractor hands over is the member of that
    name. *)
Definition requiredIsNamed (prop : ClassProp.t) : bool :=
  match ClassProp.required prop with
  | Some r => String.eqb (PropertyAssignment.getName r) "required"
  | None => true
  end.

(** How many members of an object literal have the given name. *)
Definition countNamed (n : string) (es : list ts.ObjectLiteralElementLike) : nat :=
  List.length (filter (fun e => String.eqb (ts.elementName e) n) es).

(** The file after [imports.ensure(source, 'vue', { named: ['PropType'] })]. *)
Definition withPropType (s : SourceFile) : SourceFile :=
  imports.withImports (imports.ensureBindings "vue" (imports.mkBindings None ["PropType"])) s.

(** How many statements of the file are component classes. *)
Definition componentCount (s : SourceFile) : nat :=
  List.length (filter isComponentStatement (statements s)).

Definition vueDefaultImports (s : SourceFile) : nat :=
  imports.defaultImportCount "vue" (importDeclarations s).

Definition onlyDecoratorImports (s : SourceFile) : bool :=
  forallb imports.fromDecoratorModule (importDeclarations s).

(** No import of the file comes from a decorator-convention module. *)
Definition clean (ds : list ImportDeclaration) : bool :=
  forallb (fun d => negb (imports.fromDecoratorModule d)) ds.

(** The imports are as [imports.collapse] leaves them. *)
Definition collapsed (s : SourceFile) : Prop :=
  clean (importDeclarations s) = true /\ 1 <= vueDefaultImports s.

(** Synthesis leaves the file alone or ensures the [PropType] import. *)
Definition settled (s s' : SourceFile) : Prop := s' = s \/ s' = withPropType s.

(** The text a state field is initialized with in [data]: its initializer,
    asserted to its declared type when it has one. *)
Definition stateValueText (d : PropertyDeclaration.t) (value : Node) : string :=
  match PropertyDeclaration.getTypeNode d with
  | Some type => getText value ++ " as " ++ getText type
  | None => getText value
  end.

(** The entry of [data] that stands for a state field. *)
Definition stateEntry (d : PropertyDeclaration.t) (e : ts.ObjectLiteralElementLike) : Prop :=
  exists value,
    PropertyDeclaration.getInitializer d = Some value /\
    ts.elementName e = PropertyDeclaration.getName d /\
    ts.elementInitializer e = Some (ts.Identifier (stateValueText d value)).

(** The entry of [props] that stands for an input field. *)
Definition propEntry (prop : ClassProp.t) (e : ts.ObjectLiteralElementLike) : Prop :=
  ts.elementName e = PropertyDeclaration.getName (ClassProp.declaration prop).

(** The block comment rebuilt from a description, line by line. *)
Definition blockComment (description : string) : ts.SynthesizedComment :=
  ts.mkComment ts.MultiLineCommentTrivia
    ("*" ++ js.nl ++
     js.join js.nl (map (fun line => " * " ++ line) (js.split js.LF description)) ++
     js.nl ++ " ")
    true.

(** The description of the first JSDoc block, when it is truthy. *)
Definition description (docs : list JSDoc) : option string :=
  match docs with
  | doc :: _ => if js.truthy (comment doc) then comment doc else None
  | [] => None
  end.

(** The [props] member, present when there is an input field. *)
Definition propsMember (vue : Vue.t) (entries : list ts.ObjectLiteralElementLike)
  : list ts.ObjectLiteralElementLike :=
  match Vue.props vue with
  | [] => []
  | _ :: _ => [ts.PropertyAssignment "props" (ts.ObjectLiteralExpression entries true) []]
  end.

(** The [data] member, present when there is a state field. *)
Definition dataMember (vue : Vue.t) (entries : list ts.ObjectLiteralElementLike)
  : list ts.ObjectLiteralElementLike :=
  match Vue.data vue with
  | [] => []
  | _ :: _ => [ts.MethodDeclaration "data" []
                 [ts.ReturnStatement (ts.ObjectLiteralExpression entries true)]]
  end.

Definition inherited (vue : Vue.t) : list ts.ObjectLiteralElementLike :=
  map PropertyAssignment.compilerNode (properties (Vue.decorator vue)).

End preconditions.

(* ===================================================================== *)
(** ** What a run reads, writes and throws *)
(* ===================================================================== *)

Module outcomes.
Import morph vue_class preconditions.

(** Every input field is of type string, number or boolean. *)
Definition allPrimitive (vue : Vue.t) : bool :=
  forallb (fun prop =>
             isPrimitive (PropertyDeclaration.getType (ClassProp.declaration prop)))
          (Vue.props vue).

(** The exception of an input field that cannot be synthesized: its type
    annotation is looked up before the initializer of its [default]. *)
Definition propException (prop : ClassProp.t) : Exception :=
  if annotatedUnlessPrimitive prop then ExpectedInitializer else ExpectedTypeNode.

(** What synthesis throws, if anything: the name is looked up first, then
    the input fields in order, then the state fields. *)
Definition diagnosis (vue : Vue.t) : option Exception :=
  if negb (named vue) then Some ExpectedName
  else match find (fun prop => negb (propOk prop)) (Vue.props vue) with
       | Some prop => Some (propException prop)
       | None =>
           if forallb dataOk (Vue.data vue) then None else Some ExpectedInitializer
       end.

(** The descriptor of an input field: the field's name, bound to a
    multi-line object literal of two members, the first of them [type]. *)
Definition descriptor (prop : ClassProp.t) (e : ts.ObjectLiteralElementLike) : Prop :=
  exists type option comments,
    e = ts.PropertyAssignment
          (PropertyDeclaration.getName (ClassProp.declaration prop))
          (ts.ObjectLiteralExpression [type; option] true)
          comments /\
    ts.elementName type = "type".


(** A component with a non-primitive input field and a state field without
    initializer. *)
Definition pendingVue : Vue.t :=
  Vue.mk (ClassDeclaration.mk 0 examples.counterClass) (mkConfig [])
    [ClassProp.mk examples.response None None]
    [examples.clicks; examples.pending].



(** A component whose input fields are all primitive:
    [@Prop() message?: string] and [@Prop({ required: true }) count!: number]. *)
Definition primitivePropsClass : ClassNode :=
  mkClass (Some "Component") [] [examples.bare "Component"]
    [examples.message; examples.count] [].

Definition primitivePropsComponent : SourceFile :=
  mkSource [mkImport "vue" (Some "Vue") []]
           [ClassStatement primitivePropsClass] AsWritten.

End outcomes.

(* ===================================================================== *)
(** * Theorems *)
(* ===================================================================== *)

Import morph vue_class vue_object preconditions.

(** Unfolds one layer of the computation monad. *)
Ltac munfold := unfold bind, ret, throw, modify, orThrow in *.

(* --------------------------------------------------------------------- *)
(** ** Strings *)
(* --------------------------------------------------------------------- *)

Lemma split_nonempty (sep : ascii) (s : string) : js.split sep s <> [].
Proof.
  induction s as [|c rest IH]; simpl.
  - discriminate.
  - destruct (Ascii.eqb c sep); [discriminate|].
    destruct (js.split sep rest); [contradiction | discriminate].
Qed.

(** Joining the pieces of a split gives the string back. *)
Lemma join_split (sep : ascii) (s : string) :
  js.join (String sep EmptyString) (js.split sep s) = s.
Proof.
  unfold js.join.
  induction s as [|c rest IH]; simpl.
  - reflexivity.
  - destruct (Ascii.eqb_spec c sep) as [->|Hne].
    + pose proof (split_nonempty sep rest) as Hn.
      simpl. destruct (js.split sep rest) as [|p ps]; [contradiction|].
      simpl. f_equal. exact IH.
    + pose proof (split_nonempty sep rest) as Hn.
      destruct (js.split sep rest) as [|p ps]; [contradiction|].
      simpl in *. destruct ps; simpl in *; rewrite <- IH; reflexivity.
Qed.

(** No piece of a split holds the separator. *)
Lemma split_pieces (sep : ascii) (s piece : string) :
  In piece (js.split sep s) -> js.includes sep piece = false.
Proof.
  revert piece. induction s as [|c rest IH]; simpl; intros piece Hin.
  - now destruct Hin as [<-|[]].
  - destruct (Ascii.eqb c sep) eqn:Ec.
    + destruct Hin as [<-|Hin]; [reflexivity | now apply IH].
    + pose proof (split_nonempty sep rest) as Hn.
      destruct (js.split sep rest) as [|p ps]; [contradiction|].
      destruct Hin as [<-|Hin].
      * simpl. rewrite Ec. apply IH. now left.
      * apply IH. now right.
Qed.

Lemma includes_app (sep : ascii) (a b : string) :
  js.includes sep (a ++ b) = js.includes sep a || js.includes sep b.
Proof.
  induction a as [|c a IH]; simpl; [reflexivity|]. now rewrite IH, orb_assoc.
Qed.

(** A string without the separator is its own single piece. *)
Lemma split_single (sep : ascii) (a : string) :
  js.includes sep a = false -> js.split sep a = [a].
Proof.
  induction a as [|c a IH]; simpl; intros H; [reflexivity|].
  apply orb_false_iff in H as [Hc Ha]. rewrite Hc, (IH Ha). reflexivity.
Qed.

(** Splitting distributes over a separator. *)
Lemma split_app (sep : ascii) (a b : string) :
  js.split sep (a ++ String sep b) = (js.split sep a ++ js.split sep b)%list.
Proof.
  induction a as [|c a IH]; simpl.
  - now rewrite Ascii.eqb_refl.
  - destruct (Ascii.eqb c sep); [now rewrite IH|].
    rewrite IH. pose proof (split_nonempty sep a) as Hn.
    destruct (js.split sep a); [contradiction | reflexivity].
Qed.

(** Splitting undoes joining, for pieces without the separator. *)
Lemma split_join (sep : ascii) (xs : list string) :
  xs <> [] -> Forall (fun x => js.includes sep x = false) xs ->
  js.split sep (js.join (String sep EmptyString) xs) = xs.
Proof.
  unfold js.join.
  induction xs as [|x tl IH]; intros Hne Hall; [contradiction|].
  inversion Hall as [|? ? Hx Htl]; subst.
  destruct tl as [|y tl'].
  - simpl. now apply split_single.
  - change (String.concat (String sep EmptyString) (x :: y :: tl'))
      with (x ++ String sep (String.concat (String sep EmptyString) (y :: tl'))).
    rewrite split_app, (split_single _ _ Hx), IH; [reflexivity | discriminate | exact Htl].
Qed.

(* --------------------------------------------------------------------- *)
(** ** The import ledger *)
(* --------------------------------------------------------------------- *)

Section ImportLedger.
Variables m n : string.

Lemma hasNamedImport_addNamed ds :
  imports.hasNamedImport m n (imports.addNamed m n ds) = true.
Proof.
  unfold imports.hasNamedImport.
  induction ds as [|d tl IH]; simpl.
  - unfold imports.isNamedImportOf, imports.fromModule; simpl.
    now rewrite !String.eqb_refl.
  - destruct (imports.fromModule m d) eqn:E; simpl.
    + unfold imports.isNamedImportOf at 1. unfold imports.fromModule in *. simpl.
      rewrite E, existsb_app; simpl. now rewrite String.eqb_refl, orb_true_r.
    + now rewrite IH, orb_true_r.
Qed.

Lemma hasNamedImport_ensureNamed ds :
  imports.hasNamedImport m n (imports.ensureNamed m ds n) = true.
Proof.
  unfold imports.ensureNamed.
  destruct (imports.hasNamedImport m n ds) eqn:E; [exact E|].
  apply hasNamedImport_addNamed.
Qed.

(** Ensuring a named import twice is ensuring it once. *)
Lemma ensureNamed_idempotent ds :
  imports.ensureNamed m (imports.ensureNamed m ds n) n = imports.ensureNamed m ds n.
Proof.
  unfold imports.ensureNamed at 1. now rewrite hasNamedImport_ensureNamed.
Qed.

Lemma defaultImportCount_addNamed m' ds :
  imports.defaultImportCount m' (imports.addNamed m n ds)
  = imports.defaultImportCount m' ds.
Proof.
  unfold imports.defaultImportCount.
  induction ds as [|d tl IH]; simpl.
  - unfold imports.isDefaultImportOf; simpl. now rewrite andb_false_r.
  - destruct (imports.fromModule m d); simpl.
    + change (imports.isDefaultImportOf m'
                (mkImport (moduleSpecifier d) (defaultImport d) (namedImports d ++ [n])%list))
        with (imports.isDefaultImportOf m' d).
      destruct (imports.isDefaultImportOf m' d); reflexivity.
    + destruct (imports.isDefaultImportOf m' d); simpl; now rewrite IH.
Qed.

Lemma defaultImportCount_ensureNamed m' ds :
  imports.defaultImportCount m' (imports.ensureNamed m ds n)
  = imports.defaultImportCount m' ds.
Proof.
  unfold imports.ensureNamed.
  destruct (imports.hasNamedImport m n ds); [reflexivity|].
  apply defaultImportCount_addNamed.
Qed.

Lemma existsb_default_count ds :
  existsb (imports.isDefaultImportOf m) ds = negb (Nat.eqb (imports.defaultImportCount m ds) 0).
Proof.
  unfold imports.defaultImportCount.
  induction ds as [|d tl IH]; simpl; [reflexivity|].
  destruct (imports.isDefaultImportOf m d); simpl; [reflexivity | exact IH].
Qed.

Lemma defaultImportCount_addDefault name ds :
  imports.defaultImportCount m ds = 0 ->
  imports.defaultImportCount m (imports.addDefault m name ds) = 1.
Proof.
  unfold imports.defaultImportCount.
  induction ds as [|d tl IH]; simpl; intros H.
  - unfold imports.isDefaultImportOf, imports.fromModule; simpl.
    now rewrite String.eqb_refl.
  - destruct (imports.isDefaultImportOf m d) eqn:Ed; simpl in H; [discriminate|].
    destruct (imports.fromModule m d) eqn:Em; simpl.
    + unfold imports.isDefaultImportOf, imports.fromModule in *; simpl.
      rewrite Em; simpl. now rewrite H.
    + rewrite Ed. now apply IH.
Qed.

(** A default import is added only where there is none. *)
Lemma defaultImportCount_ensureDefault name ds :
  imports.defaultImportCount m (imports.ensureDefault m name ds)
  = Nat.max 1 (imports.defaultImportCount m ds).
Proof.
  unfold imports.ensureDefault. rewrite existsb_default_count.
  destruct (imports.defaultImportCount m ds) as [|k] eqn:E; simpl.
  - now apply defaultImportCount_addDefault.
  - rewrite E. reflexivity.
Qed.

Lemma fromDecoratorModule_addNamed ds :
  imports.fromDecoratorModule (mkImport m None []) = false ->
  forallb (fun d => negb (imports.fromDecoratorModule d)) ds = true ->
  forallb (fun d => negb (imports.fromDecoratorModule d)) (imports.addNamed m n ds) = true.
Proof.
  intros Hm. induction ds as [|d tl IH]; simpl; intros H.
  - unfold imports.fromDecoratorModule in *; simpl in *. now rewrite Hm.
  - apply andb_true_iff in H as [Hd Ht].
    destruct (imports.fromModule m d); simpl.
    + unfold imports.fromDecoratorModule in *; simpl in *. now rewrite Hd, Ht.
    + now rewrite Hd, IH.
Qed.

End ImportLedger.

Lemma removeDecoratorImports_clean ds :
  forallb (fun d => negb (imports.fromDecoratorModule d)) (imports.removeDecoratorImports ds)
  = true.
Proof.
  unfold imports.removeDecoratorImports.
  apply forallb_forall. intros d Hd. now apply filter_In in Hd as [_ Hd].
Qed.

Lemma removeDecoratorImports_fixed ds :
  forallb (fun d => negb (imports.fromDecoratorModule d)) ds = true ->
  imports.removeDecoratorImports ds = ds.
Proof.
  unfold imports.removeDecoratorImports.
  induction ds as [|d tl IH]; simpl; intros H; [reflexivity|].
  apply andb_true_iff in H as [Hd Ht]. rewrite Hd. now rewrite IH.
Qed.

Lemma removeDecoratorImports_all ds :
  forallb imports.fromDecoratorModule ds = true ->
  imports.removeDecoratorImports ds = [].
Proof.
  unfold imports.removeDecoratorImports.
  induction ds as [|d tl IH]; simpl; intros H; [reflexivity|].
  apply andb_true_iff in H as [Hd Ht]. rewrite Hd. simpl. now apply IH.
Qed.

(** The base framework module is not a decorator-convention module, so
    removing the decorator imports keeps its default imports. *)
Lemma defaultImportCount_removeDecoratorImports ds :
  imports.defaultImportCount "vue" (imports.removeDecoratorImports ds)
  = imports.defaultImportCount "vue" ds.
Proof.
  unfold imports.defaultImportCount, imports.removeDecoratorImports.
  induction ds as [|d tl IH]; simpl; [reflexivity|].
  destruct (imports.fromDecoratorModule d) eqn:Ed; simpl.
  - assert (imports.isDefaultImportOf "vue" d = false) as ->; [|exact IH].
    unfold imports.isDefaultImportOf, imports.fromModule.
    unfold imports.fromDecoratorModule, imports.decoratorModules in Ed. simpl in Ed.
    destruct (String.eqb_spec (moduleSpecifier d) "vue") as [E|]; [|reflexivity].
    rewrite E in Ed. discriminate.
  - destruct (imports.isDefaultImportOf "vue" d); simpl; now rewrite IH.
Qed.

(* --------------------------------------------------------------------- *)
(** ** Mapping a computation over a list *)
(* --------------------------------------------------------------------- *)

Section MapM.
Context {A B : Type}.
Variable g : A -> M B.
Variable ok : A -> bool.
(** What one call does to the file, and what it returns. *)
Variable R : SourceFile -> SourceFile -> Prop.
Variable P : A -> B -> Prop.
Hypothesis R_refl : forall s, R s s.
Hypothesis R_trans : forall s1 s2 s3, R s1 s2 -> R s2 s3 -> R s1 s3.
Hypothesis g_returns : forall x s, ok x = true ->
  exists y s', g x s = (Returned y, s') /\ R s s' /\ P x y.
Hypothesis g_throws : forall x s, ok x = false ->
  exists e s', g x s = (Thrown e, s') /\ R s s'.

Lemma mapM_returns xs : forall s, forallb ok xs = true ->
  exists ys s', mapM g xs s = (Returned ys, s') /\ R s s' /\ Forall2 P xs ys.
Proof.
  induction xs as [|x tl IH]; simpl; intros s H.
  - exists [], s. repeat split; auto.
  - apply andb_true_iff in H as [Hx Ht].
    destruct (g_returns x s Hx) as (y & s1 & E1 & R1 & P1).
    destruct (IH s1 Ht) as (ys & s2 & E2 & R2 & P2).
    exists (y :: ys), s2. munfold. rewrite E1, E2. eauto.
Qed.

Lemma mapM_throws xs : forall s, forallb ok xs = false ->
  exists e s', mapM g xs s = (Thrown e, s') /\ R s s'.
Proof.
  induction xs as [|x tl IH]; simpl; intros s H; [discriminate|].
  destruct (ok x) eqn:Hx; simpl in H.
  - destruct (g_returns x s Hx) as (y & s1 & E1 & R1 & _).
    destruct (IH s1 H) as (e & s2 & E2 & R2).
    exists e, s2. munfold. rewrite E1, E2. eauto.
  - destruct (g_throws x s Hx) as (e & s1 & E1 & R1).
    exists e, s1. munfold. rewrite E1. eauto.
Qed.

End MapM.

(* --------------------------------------------------------------------- *)
(** ** What synthesis does to the file *)
(* --------------------------------------------------------------------- *)

Lemma withPropType_idempotent s : withPropType (withPropType s) = withPropType s.
Proof.
  unfold withPropType, imports.withImports, imports.ensureBindings; simpl.
  now rewrite ensureNamed_idempotent.
Qed.

Lemma settled_refl s : settled s s.
Proof. now left. Qed.

Lemma settled_trans s1 s2 s3 : settled s1 s2 -> settled s2 s3 -> settled s1 s3.
Proof.
  unfold settled. intros [->| ->] [->| ->]; auto.
  right. apply withPropType_idempotent.
Qed.

Lemma settled_statements s s' : settled s s' -> statements s' = statements s.
Proof. now intros [->| ->]. Qed.

Lemma settled_layout s s' : settled s s' -> layout s' = layout s.
Proof. now intros [->| ->]. Qed.

Lemma settled_defaultImportCount m s s' : settled s s' ->
  imports.defaultImportCount m (importDeclarations s')
  = imports.defaultImportCount m (importDeclarations s).
Proof.
  intros [->| ->]; [reflexivity|].
  unfold withPropType, imports.withImports, imports.ensureBindings; simpl.
  apply defaultImportCount_ensureNamed.
Qed.

Lemma hasNamedImport_withPropType s :
  imports.hasNamedImport "vue" "PropType" (importDeclarations (withPropType s)) = true.
Proof.
  unfold withPropType, imports.withImports, imports.ensureBindings; simpl.
  apply hasNamedImport_ensureNamed.
Qed.

Create HintDb synthesis.
#[local] Hint Resolve settled_refl settled_trans settled_statements settled_layout : synthesis.

(* --------------------------------------------------------------------- *)
(** ** Input fields *)
(* --------------------------------------------------------------------- *)

(** The type entry, case by case. *)
Lemma classPropTypeToObjectPropType_cases (prop : ClassProp.t) (s : SourceFile) :
  classPropTypeToObjectPropType prop s =
  match PropertyDeclaration.getType (ClassProp.declaration prop) with
  | TyString => (Returned (ts.PropertyAssignment "type" (ts.Identifier "String") []), s)
  | TyNumber => (Returned (ts.PropertyAssignment "type" (ts.Identifier "Number") []), s)
  | TyBoolean => (Returned (ts.PropertyAssignment "type" (ts.Identifier "Boolean") []), s)
  | TyOther =>
      match PropertyDeclaration.getTypeNode (ClassProp.declaration prop) with
      | Some t =>
          (Returned (ts.PropertyAssignment "type"
                       (ts.Identifier ("Object as PropType<" ++ getText t ++ ">")) []),
           withPropType s)
      | None => (Thrown ExpectedTypeNode, withPropType s)
      end
  end.
Proof.
  unfold classPropTypeToObjectPropType.
  destruct (PropertyDeclaration.getType (ClassProp.declaration prop)); try reflexivity.
  simpl. munfold. unfold imports.ensure, modify.
  destruct (PropertyDeclaration.getTypeNode (ClassProp.declaration prop)); reflexivity.
Qed.

Lemma classPropToObjectProp_returns (prop : ClassProp.t) (s : SourceFile) :
  propOk prop = true ->
  exists e s', classPropToObjectProp prop s = (Returned e, s') /\ settled s s' /\
               ts.elementName e = PropertyDeclaration.getName (ClassProp.declaration prop).
Proof.
  unfold propOk, annotatedUnlessPrimitive, defaultHasInitializer, isPrimitive.
  intros H. apply andb_true_iff in H as [Ht Hd].
  unfold classPropToObjectProp, bind at 1.
  rewrite classPropTypeToObjectPropType_cases.
  unfold classPropOptionsToObjectPropOptions, createDocumentation.
  destruct (PropertyDeclaration.getType (ClassProp.declaration prop));
    simpl in Ht;
    try (destruct (PropertyDeclaration.getTypeNode (ClassProp.declaration prop));
         [|discriminate]);
    destruct (ClassProp.default prop) as [d|];
    try (destruct (PropertyAssignment.getInitializer d); [|discriminate]);
    try destruct (ClassProp.required prop);
    munfold; simpl;
    destruct (PropertyDeclaration.getJsDocs (ClassProp.declaration prop)) as [|[[c|] ?] ?];
    simpl; try destruct (negb (c =? EmptyString)); simpl;
    eexists _, _; (split; [reflexivity|]); split;
    try reflexivity; solve [now left | now right].
Qed.

Lemma classPropToObjectProp_throws (prop : ClassProp.t) (s : SourceFile) :
  propOk prop = false ->
  exists e s', classPropToObjectProp prop s = (Thrown e, s') /\ settled s s'.
Proof.
  unfold propOk, annotatedUnlessPrimitive, defaultHasInitializer, isPrimitive.
  intros H.
  unfold classPropToObjectProp, bind at 1.
  rewrite classPropTypeToObjectPropType_cases.
  unfold classPropOptionsToObjectPropOptions.
  destruct (PropertyDeclaration.getType (ClassProp.declaration prop));
    simpl in H;
    try destruct (PropertyDeclaration.getTypeNode (ClassProp.declaration prop));
    simpl in H;
    try (eexists _, _; split; [reflexivity | solve [now left | now right]]);
    (destruct (ClassProp.default prop) as [d|]; [|discriminate]);
    (destruct (PropertyAssignment.getInitializer d); [discriminate|]);
    munfold; simpl;
    eexists _, _; (split; [reflexivity | solve [now left | now right]]).
Qed.

Lemma classPropsToObjectProps_returns (vue : Vue.t) (s : SourceFile) :
  forallb propOk (Vue.props vue) = true ->
  exists entries s',
    classPropsToObjectProps vue s
    = (Returned (ts.PropertyAssignment "props" (ts.ObjectLiteralExpression entries true) []), s')
    /\ settled s s'
    /\ Forall2 propEntry (Vue.props vue) entries.
Proof.
  intros H.
  destruct (mapM_returns classPropToObjectProp propOk settled
              propEntry
              settled_refl settled_trans classPropToObjectProp_returns
              (Vue.props vue) s H) as (ys & s' & E & Hs & HP).
  exists ys, s'. unfold classPropsToObjectProps. munfold. rewrite E. auto.
Qed.

Lemma classPropsToObjectProps_throws (vue : Vue.t) (s : SourceFile) :
  forallb propOk (Vue.props vue) = false ->
  exists e s', classPropsToObjectProps vue s = (Thrown e, s') /\ settled s s'.
Proof.
  intros H.
  destruct (mapM_throws classPropToObjectProp propOk settled
              (fun _ _ => True) settled_trans) with (xs := Vue.props vue) (s := s)
    as (e & s' & E & Hs); auto.
  - intros x s0 Hx. destruct (classPropToObjectProp_returns x s0 Hx) as (y & s1 & ? & ? & _).
    eauto.
  - apply classPropToObjectProp_throws.
  - exists e, s'. unfold classPropsToObjectProps. munfold. rewrite E. auto.
Qed.

(* --------------------------------------------------------------------- *)
(** ** State fields *)
(* --------------------------------------------------------------------- *)

(** Attaching documentation changes neither the name nor the value. *)
Lemma createDocumentation_name target docs :
  ts.elementName (createDocumentation target docs) = ts.elementName target.
Proof.
  unfold createDocumentation.
  destruct docs as [|[[c|] ?] ?]; cbn [comment]; try reflexivity.
  destruct (js.truthy (Some c)); [|reflexivity].
  destruct target; reflexivity.
Qed.

Lemma createDocumentation_initializer target docs :
  ts.elementInitializer (createDocumentation target docs) = ts.elementInitializer target.
Proof.
  unfold createDocumentation.
  destruct docs as [|[[c|] ?] ?]; cbn [comment]; try reflexivity.
  destruct (js.truthy (Some c)); [|reflexivity].
  destruct target; reflexivity.
Qed.

(** The comments of a freshly created property once documented. *)
Lemma createDocumentation_comments name value docs :
  ts.elementComments
    (createDocumentation (ts.f.createPropertyAssignment name value) docs)
  = match description docs with
    | Some d => [blockComment d]
    | None => []
    end.
Proof.
  unfold createDocumentation, description.
  destruct docs as [|[[c|] ?] ?]; cbn [comment]; try reflexivity.
  destruct (js.truthy (Some c)); reflexivity.
Qed.

Lemma dataProperty_returns (d : PropertyDeclaration.t) (s : SourceFile) :
  dataOk d = true ->
  exists e s', dataProperty d s = (Returned e, s') /\ s = s' /\ stateEntry d e.
Proof.
  unfold dataOk, dataProperty. intros H.
  destruct (PropertyDeclaration.getInitializer d) as [v|] eqn:Ev; [|discriminate].
  munfold. eexists _, s. split; [reflexivity|]. split; [reflexivity|].
  exists v. rewrite createDocumentation_name, createDocumentation_initializer.
  unfold stateValueText.
  destruct (PropertyDeclaration.getTypeNode d); simpl; auto.
Qed.

Lemma dataProperty_throws (d : PropertyDeclaration.t) (s : SourceFile) :
  dataOk d = false ->
  exists e s', dataProperty d s = (Thrown e, s') /\ s = s'.
Proof.
  unfold dataOk, dataProperty. intros H.
  destruct (PropertyDeclaration.getInitializer d) as [v|] eqn:Ev; [discriminate|].
  munfold. eexists _, s. split; reflexivity.
Qed.

(** A computation that does not look at the file maps to one that does not. *)
Lemma mapM_pure {A B} (g : A -> M B) :
  (forall x s s0, g x s = (fst (g x s0), s)) ->
  forall xs s s0, mapM g xs s = (fst (mapM g xs s0), s).
Proof.
  intros Hg. induction xs as [|x tl IH]; intros s s0; simpl; [reflexivity|].
  unfold bind. rewrite (Hg x s s0).
  destruct (g x s0) as [[y|e] u]; cbn [fst]; [|reflexivity].
  rewrite (IH s u). destruct (mapM g tl u) as [[ys|e] u']; reflexivity.
Qed.

(** The state fields are read, the file is not: the result is the same on
    every file. *)
Lemma dataProperty_pure (d : PropertyDeclaration.t) (s s0 : SourceFile) :
  dataProperty d s = (fst (dataProperty d s0), s).
Proof.
  unfold dataProperty.
  destruct (PropertyDeclaration.getInitializer d); reflexivity.
Qed.

Lemma mapM_dataProperty_pure (xs : list PropertyDeclaration.t) (s s0 : SourceFile) :
  mapM dataProperty xs s = (fst (mapM dataProperty xs s0), s).
Proof. apply mapM_pure, dataProperty_pure. Qed.

Lemma classDataToObjectData_returns (vue : Vue.t) :
  forallb dataOk (Vue.data vue) = true ->
  exists entries,
    (forall s, classDataToObjectData vue s
               = (Returned (ts.MethodDeclaration "data" []
                              [ts.ReturnStatement (ts.ObjectLiteralExpression entries true)]),
                  s))
    /\ Forall2 stateEntry (Vue.data vue) entries.
Proof.
  intros H.
  destruct (mapM_returns dataProperty dataOk eq stateEntry
              (@eq_refl _) (@eq_trans _) dataProperty_returns
              (Vue.data vue) (mkSource [] [] AsWritten) H) as (ys & s' & E & <- & HP).
  exists ys. split; [|exact HP]. intros s.
  unfold classDataToObjectData. munfold.
  rewrite (mapM_dataProperty_pure _ s (mkSource [] [] AsWritten)), E. reflexivity.
Qed.

Lemma classDataToObjectData_throws (vue : Vue.t) (s : SourceFile) :
  forallb dataOk (Vue.data vue) = false ->
  exists e, classDataToObjectData vue s = (Thrown e, s).
Proof.
  intros H.
  destruct (mapM_throws dataProperty dataOk eq (fun _ _ => True) (@eq_trans _))
    with (xs := Vue.data vue) (s := s) as (e & s' & E & <-); auto.
  - intros x s0 Hx. destruct (dataProperty_returns x s0 Hx) as (y & s1 & ? & ? & _).
    eauto.
  - apply dataProperty_throws.
  - exists e. unfold classDataToObjectData. munfold. now rewrite E.
Qed.

(* --------------------------------------------------------------------- *)
(** ** The members of the object literal *)
(* --------------------------------------------------------------------- *)

Lemma objectProperties_returns (vue : Vue.t) (s : SourceFile) :
  synthesizable vue = true ->
  exists name propEntries dataEntries s',
    ClassDeclaration.getName (Vue.declaration vue) = Some name /\
    objectProperties vue s
    = (Returned ([ts.PropertyAssignment "name" (ts.StringLiteral name true) []]
                 ++ inherited vue
                 ++ propsMember vue propEntries
                 ++ dataMember vue dataEntries)%list, s') /\
    settled s s' /\
    Forall2 propEntry (Vue.props vue) propEntries /\
    Forall2 stateEntry (Vue.data vue) dataEntries /\
    (forall s0, classDataToObjectData vue s0
                = (Returned (ts.MethodDeclaration "data" []
                               [ts.ReturnStatement
                                  (ts.ObjectLiteralExpression dataEntries true)]), s0)).
Proof.
  unfold synthesizable, named. intros H.
  apply andb_true_iff in H as [H Hd]. apply andb_true_iff in H as [Hn Hp].
  destruct (ClassDeclaration.getName (Vue.declaration vue)) as [name|] eqn:En;
    [|discriminate].
  destruct (classPropsToObjectProps_returns vue s Hp) as (pes & s' & Ep & Hs & HP).
  destruct (classDataToObjectData_returns vue Hd) as (des & Ed & HD).
  unfold objectProperties, classNameToPropName, propsMember, dataMember, inherited.
  rewrite En. munfold.
  destruct (Vue.props vue) as [|p ps] eqn:Eprops;
    destruct (Vue.data vue) as [|d ds] eqn:Edata; simpl.
  - exists name, [], des, s. repeat split; auto with synthesis.
  - exists name, [], des, s. rewrite Ed. repeat split; auto with synthesis.
  - exists name, pes, des, s'. rewrite Ep. repeat split; auto.
  - exists name, pes, des, s'. rewrite Ep, Ed. repeat split; auto.
Qed.

Lemma objectProperties_throws (vue : Vue.t) (s : SourceFile) :
  synthesizable vue = false ->
  exists e s', objectProperties vue s = (Thrown e, s') /\ settled s s'.
Proof.
  unfold synthesizable, named. intros H.
  unfold objectProperties, classNameToPropName.
  destruct (ClassDeclaration.getName (Vue.declaration vue)) as [name|] eqn:En; simpl in H.
  2:{ munfold. exists ExpectedName, s. split; [reflexivity | apply settled_refl]. }
  munfold.
  destruct (forallb propOk (Vue.props vue)) eqn:Hp; simpl in H.
  - destruct (classPropsToObjectProps_returns vue s Hp) as (pes & s' & Ep & Hs & HP).
    destruct (classDataToObjectData_throws vue s H) as (e & Ed).
    destruct (classDataToObjectData_throws vue s' H) as (e' & Ed').
    destruct (Vue.data vue) as [|d ds] eqn:Edata; [discriminate H|].
    destruct (Vue.props vue) as [|p ps] eqn:Eprops; simpl.
    + rewrite Ed. exists e, s. split; [reflexivity | apply settled_refl].
    + rewrite Ep, Ed'. exists e', s'. split; [reflexivity | exact Hs].
  - destruct (classPropsToObjectProps_throws vue s Hp) as (e & s' & Ep & Hs).
    destruct (Vue.props vue) as [|p ps] eqn:Eprops; [discriminate Hp|]. simpl.
    rewrite Ep. exists e, s'. split; [reflexivity | exact Hs].
Qed.

(* --------------------------------------------------------------------- *)
(** ** [classToObject] *)
(* --------------------------------------------------------------------- *)

Lemma classToObject_absent (printNode : ts.Expression -> string)
    (extract : SourceFile -> option Vue.t) (s : SourceFile) :
  extract s = None -> classToObject printNode extract s = (Returned tt, s).
Proof. unfold classToObject. now intros ->. Qed.

Lemma classToObject_returns (printNode : ts.Expression -> string)
    (extract : SourceFile -> option Vue.t) (s : SourceFile)
    (vue : Vue.t) :
  extract s = Some vue -> synthesizable vue = true ->
  exists name propEntries dataEntries s1,
    ClassDeclaration.getName (Vue.declaration vue) = Some name /\
    settled s s1 /\
    Forall2 propEntry (Vue.props vue) propEntries /\
    Forall2 stateEntry (Vue.data vue) dataEntries /\
    classToObject printNode extract s
    = (Returned tt,
       formatText
         (addExportAssignment
            (mkExport
               (printNode
                  (ts.CallExpression (ts.Identifier "Vue.extend")
                     [ts.ObjectLiteralExpression
                        ([ts.PropertyAssignment "name" (ts.StringLiteral name true) []]
                         ++ inherited vue
                         ++ propsMember vue propEntries
                         ++ dataMember vue dataEntries)%list true]))
               false
               (writeLeadingTrivia (classDocumentation vue)))
            (remove (Vue.declaration vue) s1))).
Proof.
  intros E H.
  destruct (objectProperties_returns vue s H)
    as (name & pes & des & s1 & En & Ep & Hs & HP & HD & _).
  exists name, pes, des, s1. repeat split; auto.
  unfold classToObject. rewrite E. munfold. rewrite Ep. reflexivity.
Qed.

Lemma classToObject_throws (printNode : ts.Expression -> string)
    (extract : SourceFile -> option Vue.t) (s : SourceFile)
    (vue : Vue.t) :
  extract s = Some vue -> synthesizable vue = false ->
  exists e s1, classToObject printNode extract s = (Thrown e, s1) /\ settled s s1.
Proof.
  intros E H.
  destruct (objectProperties_throws vue s H) as (e & s1 & Ep & Hs).
  exists e, s1. split; [|exact Hs].
  unfold classToObject. rewrite E. munfold. now rewrite Ep.
Qed.

(* ===================================================================== *)
(** * The claims *)
(* ===================================================================== *)

(** The [required] option the extractor hands over is the member of that name
    in the decorator's argument. *)
Lemma extract_required_named (s : SourceFile) (vue : Vue.t) :
  vue_class.extract s = Some vue -> forallb requiredIsNamed (Vue.props vue) = true.
Proof.
  unfold vue_class.extract. intros E.
  destruct (findComponent 0 (statements s)) as [c|]; [|discriminate].
  injection E as <-. cbn [extractClass Vue.props].
  apply forallb_forall. intros prop Hp.
  apply in_flat_map in Hp as (field & _ & Hp). unfold extractProp in Hp.
  destruct (find isPropDecorator (PropertyDeclaration.getDecorators field)) as [d|];
    [|contradiction].
  destruct Hp as [<-|[]]. unfold requiredIsNamed, getProperty. cbn [ClassProp.required].
  destruct (find _ (objectLiteralProperties d)) as [r|] eqn:Er; [|reflexivity].
  now apply find_some in Er as [_ Er].
Qed.

(** C1 — Requiredness of an input field.  The descriptor synthesized for an
    input field holds its [type] entry and then exactly one entry, named
    [default] or [required]: a supplied [default] option gives [default] with
    the text of its initializer (a supplied [required] is then left out);
    otherwise a supplied [required] option is passed along as it is;
    otherwise [required: false] is made. *)
Theorem C1_default_xor_required (prop : ClassProp.t) (s : SourceFile) :
  propOk prop = true ->
  requiredIsNamed prop = true ->
  exists type option comments s',
    classPropToObjectProp prop s
    = (Returned
         (ts.PropertyAssignment
            (PropertyDeclaration.getName (ClassProp.declaration prop))
            (ts.ObjectLiteralExpression [type; option] true)
            comments), s') /\
    ts.elementName type = "type" /\
    countNamed "default" [type; option] + countNamed "required" [type; option] = 1 /\
    match ClassProp.default prop with
    | Some d =>
        exists value,
          PropertyAssignment.getInitializer d = Some value /\
          option = ts.PropertyAssignment "default" (ts.Identifier (getText value)) []
    | None =>
        match ClassProp.required prop with
        | Some r => option = PropertyAssignment.compilerNode r
        | None => option = ts.PropertyAssignment "required" ts.FalseKeyword []
        end
    end.
Proof.
  unfold propOk, annotatedUnlessPrimitive, defaultHasInitializer, isPrimitive,
    requiredIsNamed, PropertyAssignment.getName.
  intros H Hr. apply andb_true_iff in H as [Ht Hd].
  unfold classPropToObjectProp, bind at 1.
  rewrite classPropTypeToObjectPropType_cases.
  unfold classPropOptionsToObjectPropOptions, createDocumentation.
  destruct (PropertyDeclaration.getType (ClassProp.declaration prop));
    simpl in Ht;
    try (destruct (PropertyDeclaration.getTypeNode (ClassProp.declaration prop));
         [|discriminate]);
    destruct (ClassProp.default prop) as [d|];
    try (destruct (PropertyAssignment.getInitializer d) as [v|]; [|discriminate]);
    try destruct (ClassProp.required prop) as [r|];
    munfold; cbn [fst snd];
    destruct (PropertyDeclaration.getJsDocs (ClassProp.declaration prop)) as [|[[c|] ?] ?];
    cbn [comment]; try destruct (js.truthy (Some c));
    cbn [ts.addSyntheticLeadingComment ts.f.createPropertyAssignment
         ts.f.createObjectLiteralExpression ts.f.createIdentifier ts.f.createFalse app];
    eexists _, _, _, _; (split; [reflexivity|]); (split; [reflexivity|]);
    unfold countNamed; cbn [filter ts.elementName];
    try (apply String.eqb_eq in Hr; rewrite Hr);
    (split; [reflexivity | eauto]).
Qed.

(** C2 — The type entry of an input field.  A field of type string, number
    or boolean gets the wrapper identifier [String], [Number] or [Boolean] and
    the file is not touched.  For any other type the named import of
    [PropType] from ['vue'] is ensured (nothing else of the file changes) and
    the entry is [Object as PropType<T>] with [T] the text of the type
    annotation; the lookup of the annotation throws when there is none. *)
Theorem C2_type_entry (prop : ClassProp.t) (s : SourceFile) :
  let declaration := ClassProp.declaration prop in
  let run := classPropTypeToObjectPropType prop s in
  match PropertyDeclaration.getType declaration with
  | TyString => run = (Returned (ts.PropertyAssignment "type" (ts.Identifier "String") []), s)
  | TyNumber => run = (Returned (ts.PropertyAssignment "type" (ts.Identifier "Number") []), s)
  | TyBoolean => run = (Returned (ts.PropertyAssignment "type" (ts.Identifier "Boolean") []), s)
  | TyOther =>
      imports.hasNamedImport "vue" "PropType" (importDeclarations (snd run)) = true /\
      statements (snd run) = statements s /\
      layout (snd run) = layout s /\
      (imports.hasNamedImport "vue" "PropType" (importDeclarations s) = true ->
       snd run = s) /\
      match PropertyDeclaration.getTypeNode declaration with
      | Some type =>
          fst run = Returned (ts.PropertyAssignment "type"
                                (ts.Identifier ("Object as PropType<" ++ getText type ++ ">"))
                                [])
      | None => fst run = Thrown ExpectedTypeNode
      end
  end.
Proof.
  intros declaration run. subst run declaration.
  rewrite classPropTypeToObjectPropType_cases.
  destruct (PropertyDeclaration.getType (ClassProp.declaration prop)); try reflexivity.
  assert (imports.hasNamedImport "vue" "PropType" (importDeclarations s) = true ->
          withPropType s = s) as Hfix.
  { intros H. unfold withPropType, imports.withImports, imports.ensureBindings; simpl.
    unfold imports.ensureNamed. rewrite H. now destruct s. }
  destruct (PropertyDeclaration.getTypeNode (ClassProp.declaration prop));
    cbn [fst snd]; repeat split; auto using hasNamedImport_withPropType.
Qed.

(** An input field of each kind, from the test suite: [message?: string]
    gives [String], [response!: Response] gives [Object as PropType<Response>]
    and the import. *)
Example C2_type_entry_runs :
  classPropTypeToObjectPropType (ClassProp.mk examples.message None None)
    examples.propsComponent
  = (Returned (ts.PropertyAssignment "type" (ts.Identifier "String") []),
     examples.propsComponent) /\
  classPropTypeToObjectPropType (ClassProp.mk examples.response None None)
    examples.propsComponent
  = (Returned (ts.PropertyAssignment "type"
                 (ts.Identifier "Object as PropType<Response>") []),
     mkSource [mkImport "vue" None ["PropType"]]
              (statements examples.propsComponent) AsWritten).
Proof. split; reflexivity. Qed.

Lemma C1_default_xor_required_witness :
  exists type option comments s',
    classPropToObjectProp examples.bothOptions examples.propsComponent
    = (Returned
         (ts.PropertyAssignment "onClick"
            (ts.ObjectLiteralExpression [type; option] true) comments), s') /\
    ts.elementName type = "type" /\
    countNamed "default" [type; option] + countNamed "required" [type; option] = 1 /\
    exists value,
      Some (mkNode "() => noop") = Some value /\
      option = ts.PropertyAssignment "default" (ts.Identifier (getText value)) [].
Proof.
  exact (C1_default_xor_required examples.bothOptions examples.propsComponent
           eq_refl eq_refl).
Defined.

(** C5 — The replacement.  When the extracted component can be synthesized,
    [classToObject] returns, and the expression it synthesizes and hands to
    the printer, whose text the statement it adds exports, is a call of
    [Vue.extend] with a single object literal whose members are, in this
    order: [name], the nodes of the decorator configuration themselves, in
    their order, [props] when there is an input field, [data] when there is a
    state field. *)
Theorem C5_extend_call (printNode : ts.Expression -> string)
    (extract : SourceFile -> option Vue.t) (s : SourceFile) (vue : Vue.t) :
  extract s = Some vue -> synthesizable vue = true ->
  exists name propEntries dataEntries before trivia s',
    let members :=
      ([ts.PropertyAssignment "name" (ts.StringLiteral name true) []]
       ++ map PropertyAssignment.compilerNode (properties (Vue.decorator vue))
       ++ propsMember vue propEntries
       ++ dataMember vue dataEntries)%list in
    let component :=
      ts.CallExpression (ts.Identifier "Vue.extend")
        [ts.ObjectLiteralExpression members true] in
    classToObject printNode extract s = (Returned tt, s') /\
    ClassDeclaration.getName (Vue.declaration vue) = Some name /\
    statements s'
    = (before ++ [ExportAssignment (mkExport (printNode component) false trivia)])%list /\
    map ts.elementName members
    = ("name"
       :: map PropertyAssignment.getName (properties (Vue.decorator vue))
       ++ match Vue.props vue with [] => [] | _ :: _ => ["props"] end
       ++ match Vue.data vue with [] => [] | _ :: _ => ["data"] end)%list.
Proof.
  intros E H.
  destruct (classToObject_returns printNode extract s vue E H)
    as (name & pes & des & s1 & En & Hs & HP & HD & Erun).
  exists name, pes, des,
    (removeAt (ClassDeclaration.getChildIndex (Vue.declaration vue)) (statements s1)),
    (writeLeadingTrivia (classDocumentation vue)).
  eexists. cbv zeta. split; [exact Erun|]. split; [exact En|]. split; [reflexivity|].
  unfold propsMember, dataMember. cbn [app map ts.elementName].
  rewrite !map_app, map_map. unfold PropertyAssignment.getName.
  destruct (Vue.props vue), (Vue.data vue); reflexivity.
Qed.

Lemma C5_extend_call_witness :
  exists name propEntries dataEntries before trivia s',
    let members :=
      ([ts.PropertyAssignment "name" (ts.StringLiteral name true) []]
       ++ map PropertyAssignment.compilerNode
            (properties (Vue.decorator examples.collidingVue))
       ++ propsMember examples.collidingVue propEntries
       ++ dataMember examples.collidingVue dataEntries)%list in
    let component :=
      ts.CallExpression (ts.Identifier "Vue.extend")
        [ts.ObjectLiteralExpression members true] in
    classToObject examples.printer (fun _ => Some examples.collidingVue)
      examples.renamedComponent
    = (Returned tt, s') /\
    ClassDeclaration.getName (Vue.declaration examples.collidingVue) = Some name /\
    statements s'
    = (before ++
       [ExportAssignment (mkExport (examples.printer component) false trivia)])%list /\
    map ts.elementName members
    = ["name"; "name"; "props"; "data"; "props"; "data"].
Proof.
  exact (C5_extend_call examples.printer (fun _ => Some examples.collidingVue)
           examples.renamedComponent examples.collidingVue eq_refl eq_refl).
Defined.

(** C7 — The [data] method.  When there is a state field (and the component
    can be synthesized: every state field has its initializer),
    [classDataToObjectData] returns, without touching the file, a method named
    [data] with no parameter whose body returns an object literal with one
    entry per state field, in order; the entry has the field's name and, for
    value, the text of the initializer, followed by [as T] exactly when the
    field has a type annotation [T].  [classToObject] puts this method last
    among the members of the component. *)
Theorem C7_data_method (vue : Vue.t) (s : SourceFile) :
  synthesizable vue = true ->
  Vue.data vue <> [] ->
  exists entries others s',
    classDataToObjectData vue s
    = (Returned (ts.MethodDeclaration "data" []
                   [ts.ReturnStatement (ts.ObjectLiteralExpression entries true)]), s) /\
    objectProperties vue s
    = (Returned (others ++
                 [ts.MethodDeclaration "data" []
                    [ts.ReturnStatement (ts.ObjectLiteralExpression entries true)]])%list,
       s') /\
    List.length entries = List.length (Vue.data vue) /\
    Forall2 (fun d e =>
               exists value,
                 PropertyDeclaration.getInitializer d = Some value /\
                 ts.elementName e = PropertyDeclaration.getName d /\
                 ts.elementInitializer e
                 = Some (ts.Identifier
                           match PropertyDeclaration.getTypeNode d with
                           | Some type => getText value ++ " as " ++ getText type
                           | None => getText value
                           end))
            (Vue.data vue) entries.
Proof.
  intros H Hne.
  destruct (objectProperties_returns vue s H)
    as (name & pes & des & s' & _ & Ep & _ & _ & HD & Ed).
  exists des,
    ([ts.PropertyAssignment "name" (ts.StringLiteral name true) []]
     ++ inherited vue ++ propsMember vue pes)%list, s'.
  split; [apply Ed|]. split.
  - rewrite Ep. unfold dataMember.
    destruct (Vue.data vue); [contradiction|]. now rewrite <- !app_assoc.
  - split; [symmetry; eapply Forall2_length; eauto | exact HD].
Qed.

Lemma C7_data_method_witness :
  exists entries others s',
    classDataToObjectData examples.counterVue examples.counterComponent
    = (Returned (ts.MethodDeclaration "data" []
                   [ts.ReturnStatement (ts.ObjectLiteralExpression entries true)]),
       examples.counterComponent) /\
    objectProperties examples.counterVue examples.counterComponent
    = (Returned (others ++
                 [ts.MethodDeclaration "data" []
                    [ts.ReturnStatement (ts.ObjectLiteralExpression entries true)]])%list,
       s') /\
    List.length entries = 3 /\
    Forall2 (fun d e =>
               exists value,
                 PropertyDeclaration.getInitializer d = Some value /\
                 ts.elementName e = PropertyDeclaration.getName d /\
                 ts.elementInitializer e
                 = Some (ts.Identifier
                           match PropertyDeclaration.getTypeNode d with
                           | Some type => getText value ++ " as " ++ getText type
                           | None => getText value
                           end))
            [examples.clicks; examples.label; examples.old] entries.
Proof.
  apply (C7_data_method examples.counterVue examples.counterComponent);
    [reflexivity | discriminate].
Defined.

Lemma countNamed_app (n : string) (xs ys : list ts.ObjectLiteralElementLike) :
  countNamed n (xs ++ ys)%list = countNamed n xs + countNamed n ys.
Proof. unfold countNamed. now rewrite filter_app, length_app. Qed.

(** C8, as stated, fails: the synthesized [name] is pushed before the
    members of the decorator configuration, not after them.  For
    [@Component({ name: 'Other' }) class Widget] the members are
    [name: 'Widget'] then [name: 'Other']. *)
Lemma C8_counterexample :
  ~ (forall (s : SourceFile) (vue : Vue.t) members s',
       vue_class.extract s = Some vue ->
       objectProperties vue s = (Returned members, s') ->
       exists synthesized,
         members = (map PropertyAssignment.compilerNode (properties (Vue.decorator vue))
                    ++ synthesized)%list).
Proof.
  intros H.
  destruct (H examples.renamedComponent examples.renamedVue _ _ eq_refl eq_refl)
    as (synthesized & E).
  discriminate E.
Qed.

(** C8, amended — Collisions with the decorator configuration.  The object
    literal that [classToObject] synthesizes and hands to the printer has for
    members the synthesized [name], then the nodes of the decorator
    configuration, all of them, then the synthesized [props] and [data] when
    there are input and state fields.  Nothing is merged or left out of that
    object literal: it has one [name] more than the configuration, and one
    [props] and one [data] more when those are synthesized, so a
    configuration member of such a name gives it a doubled key.  What the
    printer writes for the nodes of the configuration is not stated. *)
Theorem C8_collisions (printNode : ts.Expression -> string)
    (extract : SourceFile -> option Vue.t) (s : SourceFile) (vue : Vue.t) :
  extract s = Some vue ->
  synthesizable vue = true ->
  exists nameEntry rest members before trivia s',
    classToObject printNode extract s = (Returned tt, s') /\
    statements s'
    = (before ++
       [ExportAssignment
          (mkExport
             (printNode
                (ts.CallExpression (ts.Identifier "Vue.extend")
                   [ts.ObjectLiteralExpression members true]))
             false trivia)])%list /\
    members = ([nameEntry] ++ inherited vue ++ rest)%list /\
    ts.elementName nameEntry = "name" /\
    map ts.elementName rest
    = (match Vue.props vue with [] => [] | _ :: _ => ["props"] end
       ++ match Vue.data vue with [] => [] | _ :: _ => ["data"] end)%list /\
    incl (inherited vue) members /\
    countNamed "name" members = 1 + countNamed "name" (inherited vue) /\
    countNamed "props" members
    = countNamed "props" (inherited vue)
      + match Vue.props vue with [] => 0 | _ :: _ => 1 end /\
    countNamed "data" members
    = countNamed "data" (inherited vue)
      + match Vue.data vue with [] => 0 | _ :: _ => 1 end.
Proof.
  intros E H.
  destruct (classToObject_returns printNode extract s vue E H)
    as (name & pes & des & s1 & _ & _ & _ & _ & Erun).
  exists (ts.PropertyAssignment "name" (ts.StringLiteral name true) []),
    (propsMember vue pes ++ dataMember vue des)%list.
  eexists _, _, _, _. split; [exact Erun|]. split; [reflexivity|].
  split; [reflexivity|]. split; [reflexivity|].
  split; [|split].
  - unfold propsMember, dataMember. destruct (Vue.props vue), (Vue.data vue); reflexivity.
  - intros c Hc. apply in_or_app. right. apply in_or_app. now left.
  - rewrite !countNamed_app. unfold propsMember, dataMember.
    destruct (Vue.props vue), (Vue.data vue); unfold countNamed; cbn; lia.
Qed.

Lemma C8_collisions_witness :
  exists nameEntry rest members before trivia s',
    classToObject examples.printer (fun _ => Some examples.collidingVue)
      examples.renamedComponent
    = (Returned tt, s') /\
    statements s'
    = (before ++
       [ExportAssignment
          (mkExport
             (examples.printer
                (ts.CallExpression (ts.Identifier "Vue.extend")
                   [ts.ObjectLiteralExpression members true]))
             false trivia)])%list /\
    members = ([nameEntry] ++ inherited examples.collidingVue ++ rest)%list /\
    ts.elementName nameEntry = "name" /\
    map ts.elementName rest = ["props"; "data"] /\
    incl (inherited examples.collidingVue) members /\
    countNamed "name" members = 2 /\
    countNamed "props" members = 2 /\
    countNamed "data" members = 2.
Proof.
  exact (C8_collisions examples.printer (fun _ => Some examples.collidingVue)
           examples.renamedComponent examples.collidingVue eq_refl eq_refl).
Defined.

(** The state fields the extractor hands over have their initializers. *)
Lemma extract_state_fields_initialized (s : SourceFile) (vue : Vue.t) :
  vue_class.extract s = Some vue -> forallb dataOk (Vue.data vue) = true.
Proof.
  unfold vue_class.extract. intros E.
  destruct (findComponent 0 (statements s)) as [c|]; [|discriminate].
  injection E as <-. cbn [extractClass Vue.data].
  apply forallb_forall. intros d Hd. apply filter_In in Hd as [_ Hd].
  unfold isStateField in Hd. apply andb_true_iff in Hd as [_ Hd]. exact Hd.
Qed.

(** C10 — Totality of synthesis.  For the component the extractor hands
    over, [classToObject] returns exactly when every input field whose type
    is not string, number or boolean has a type annotation, every supplied
    [default] option has an initializer, every state field has an initializer
    and the class has a name.  Otherwise it throws the exception of one of the
    lookups: no diagnostic is reported, and the class is still in the file,
    whose statements and layout are as they were. *)
Theorem C10_totality (printNode : ts.Expression -> string)
    (extract : SourceFile -> option Vue.t) (s : SourceFile)
    (vue : Vue.t) :
  extract s = Some vue ->
  (if synthesizable vue
   then exists s', classToObject printNode extract s = (Returned tt, s')
   else exists e s',
          classToObject printNode extract s = (Thrown e, s') /\
          statements s' = statements s /\ layout s' = layout s) /\
  (named vue = false -> classToObject printNode extract s = (Thrown ExpectedName, s)).
Proof.
  intros E. split.
  - destruct (synthesizable vue) eqn:H.
    + destruct (classToObject_returns printNode extract s vue E H)
        as (name & pes & des & s1 & _ & _ & _ & _ & Erun).
      eauto.
    + destruct (classToObject_throws printNode extract s vue E H) as (e & s1 & Erun & Hs).
      exists e, s1. auto with synthesis.
  - unfold named. intros Hn.
    unfold classToObject, objectProperties, classNameToPropName. rewrite E.
    destruct (ClassDeclaration.getName (Vue.declaration vue)); [discriminate|].
    reflexivity.
Qed.

Lemma C10_totality_witness :
  (exists s',
     classToObject examples.printer vue_class.extract examples.propsComponent = (Returned tt, s')) /\
  (exists e s',
     classToObject examples.printer vue_class.extract examples.untypedComponent = (Thrown e, s') /\
     statements s' = statements examples.untypedComponent /\
     layout s' = layout examples.untypedComponent) /\
  classToObject examples.printer vue_class.extract examples.anonymousComponent
  = (Thrown ExpectedName, examples.anonymousComponent).
Proof.
  split; [|split].
  - exact (proj1 (C10_totality examples.printer vue_class.extract examples.propsComponent _ eq_refl)).
  - exact (proj1 (C10_totality examples.printer vue_class.extract examples.untypedComponent _ eq_refl)).
  - exact (proj2 (C10_totality examples.printer vue_class.extract examples.anonymousComponent _ eq_refl)
             eq_refl).
Defined.

(** The lines of the rebuilt comment: the opening [*], each line of the
    description behind the continuation marker, the closing blank. *)
Lemma blockComment_lines (d : string) :
  js.split js.LF (ts.text (blockComment d))
  = ("*" :: map (fun line => (" * " ++ line)%string) (js.split js.LF d) ++ [" "])%list.
Proof.
  unfold blockComment. cbn [ts.text].
  set (lines := map (fun line => " * " ++ line) (js.split js.LF d)).
  unfold js.nl.
  change ("*" ++ String js.LF EmptyString ++ js.join (String js.LF EmptyString) lines ++ String js.LF EmptyString ++ " ")
    with ("*" ++ String js.LF (js.join (String js.LF EmptyString) lines ++ String js.LF " ")).
  rewrite !split_app.
  rewrite (split_join js.LF lines).
  - reflexivity.
  - subst lines. pose proof (split_nonempty js.LF d).
    destruct (js.split js.LF d); [contradiction | discriminate].
  - subst lines. apply Forall_forall. intros x Hx.
    apply in_map_iff in Hx as (line & <- & Hline).
    rewrite includes_app, (split_pieces _ _ _ Hline). reflexivity.
Qed.

(** C9, as stated, fails: a field can have documentation and its property no
    comment.  The state field [old] is documented by [/** @deprecated */], a
    block of tags without description, and its entry in [data] has no leading
    comment. *)
Lemma C9_counterexample :
  ~ (forall (field : PropertyDeclaration.t) (s : SourceFile)
            (e : ts.ObjectLiteralElementLike),
       PropertyDeclaration.getJsDocs field <> [] ->
       dataProperty field s = (Returned e, s) ->
       ts.elementComments e <> []).
Proof.
  intros H.
  apply (H examples.old examples.counterComponent
           (ts.PropertyAssignment "old" (ts.Identifier "null") []));
    [discriminate | reflexivity | reflexivity].
Qed.

(** C9, amended — Documentation.  The generated property of a field carries
    a leading block comment exactly when the field's first JSDoc block has a
    description that is not empty: the comment is a multi-line comment ending
    in a new line whose lines are [*], then each line of that description
    behind the continuation marker [ * ], then a blank; it is the only comment
    of the property, so tags and later blocks are not carried over, and a
    field whose first block has no description gets no comment.  The
    statement that exports the component has for leading trivia the full text
    of the class's first JSDoc block on a line of its own, and nothing when
    the class has no JSDoc. *)
Theorem C9_documentation :
  (forall d : string,
     ts.kind (blockComment d) = ts.MultiLineCommentTrivia /\
     ts.hasTrailingNewLine (blockComment d) = true /\
     js.split js.LF (ts.text (blockComment d))
     = ("*" :: map (fun line => (" * " ++ line)%string) (js.split js.LF d) ++ [" "])%list) /\
  (forall (prop : ClassProp.t) (s : SourceFile),
     propOk prop = true ->
     exists e s',
       classPropToObjectProp prop s = (Returned e, s') /\
       ts.elementComments e
       = match description (PropertyDeclaration.getJsDocs (ClassProp.declaration prop)) with
         | Some d => [blockComment d]
         | None => []
         end) /\
  (forall (field : PropertyDeclaration.t) (s : SourceFile),
     dataOk field = true ->
     exists e,
       dataProperty field s = (Returned e, s) /\
       ts.elementComments e
       = match description (PropertyDeclaration.getJsDocs field) with
         | Some d => [blockComment d]
         | None => []
         end) /\
  (forall (printNode : ts.Expression -> string)
    (extract : SourceFile -> option Vue.t) (s : SourceFile) (vue : Vue.t),
     extract s = Some vue -> synthesizable vue = true ->
     exists s' before e,
       classToObject printNode extract s = (Returned tt, s') /\
       statements s' = (before ++ [ExportAssignment e])%list /\
       leadingTrivia e
       = match ClassDeclaration.getJsDocs (Vue.declaration vue) with
         | doc :: _ =>
             if js.truthy (Some (getFullText doc)) then getFullText doc ++ js.nl else EmptyString
         | [] => EmptyString
         end).
Proof.
  split; [|split; [|split]].
  - intros d. repeat split. apply blockComment_lines.
  - intros prop s H.
    unfold propOk, annotatedUnlessPrimitive, defaultHasInitializer, isPrimitive in H.
    apply andb_true_iff in H as [Ht Hd].
    unfold classPropToObjectProp, bind at 1.
    rewrite classPropTypeToObjectPropType_cases.
    unfold classPropOptionsToObjectPropOptions.
    destruct (PropertyDeclaration.getType (ClassProp.declaration prop));
      simpl in Ht;
      try (destruct (PropertyDeclaration.getTypeNode (ClassProp.declaration prop));
           [|discriminate]);
      destruct (ClassProp.default prop) as [d|];
      try (destruct (PropertyAssignment.getInitializer d) as [v|]; [|discriminate]);
      try destruct (ClassProp.required prop) as [r|];
      munfold; cbn [fst snd];
      eexists _, _; (split; [reflexivity|]);
      apply createDocumentation_comments.
  - intros field s H. unfold dataOk in H. unfold dataProperty.
    destruct (PropertyDeclaration.getInitializer field) as [v|]; [|discriminate].
    munfold. eexists. split; [reflexivity|].
    destruct (PropertyDeclaration.getTypeNode field); apply createDocumentation_comments.
  - intros printNode extract s vue E H.
    destruct (classToObject_returns printNode extract s vue E H)
      as (name & pes & des & s1 & _ & _ & _ & _ & Erun).
    eexists _, _, _. split; [exact Erun|]. split; [reflexivity|].
    cbn [leadingTrivia]. unfold writeLeadingTrivia, classDocumentation.
    destruct (ClassDeclaration.getJsDocs (Vue.declaration vue)); reflexivity.
Qed.

Lemma C9_documentation_witness :
  (exists e,
     dataProperty examples.clicks examples.counterComponent
     = (Returned e, examples.counterComponent) /\
     ts.elementComments e
     = [blockComment ("How many clicks." ++ js.nl ++ "Starts at zero.")]) /\
  js.split js.LF
    (ts.text (blockComment ("How many clicks." ++ js.nl ++ "Starts at zero.")))
  = ["*"; " * How many clicks."; " * Starts at zero."; " "] /\
  (exists s' before e,
     classToObject examples.printer vue_class.extract examples.counterComponent = (Returned tt, s') /\
     statements s' = (before ++ [ExportAssignment e])%list /\
     leadingTrivia e = "/** A counter. */" ++ js.nl).
Proof.
  destruct C9_documentation as (Hlines & _ & Hdata & Hclass).
  split; [|split].
  - exact (Hdata examples.clicks examples.counterComponent eq_refl).
  - exact (proj2 (proj2 (Hlines ("How many clicks." ++ js.nl ++ "Starts at zero.")))).
  - exact (Hclass examples.printer vue_class.extract examples.counterComponent _
             eq_refl eq_refl).
Defined.

(* --------------------------------------------------------------------- *)
(** ** Collapsing the imports *)
(* --------------------------------------------------------------------- *)

Lemma collapse_run (s : SourceFile) :
  imports.collapse s
  = (Returned tt,
     imports.withImports
       (fun ds => imports.ensureDefault "vue" "Vue" (imports.removeDecoratorImports ds)) s).
Proof. destruct s. reflexivity. Qed.

Lemma clean_addDefault (ds : list ImportDeclaration) :
  clean ds = true -> clean (imports.addDefault "vue" "Vue" ds) = true.
Proof.
  unfold clean. induction ds as [|d tl IH]; simpl; intros H; [reflexivity|].
  apply andb_true_iff in H as [Hd Ht].
  destruct (imports.fromModule "vue" d); simpl.
  - unfold imports.fromDecoratorModule in *; simpl in *. now rewrite Hd, Ht.
  - now rewrite Hd, IH.
Qed.

Lemma clean_ensureDefault (ds : list ImportDeclaration) :
  clean ds = true -> clean (imports.ensureDefault "vue" "Vue" ds) = true.
Proof.
  unfold imports.ensureDefault. intros H.
  destruct (existsb (imports.isDefaultImportOf "vue") ds); auto using clean_addDefault.
Qed.

Lemma clean_ensureNamed (ds : list ImportDeclaration) (n : string) :
  clean ds = true -> clean (imports.ensureNamed "vue" ds n) = true.
Proof.
  unfold imports.ensureNamed. intros H.
  destruct (imports.hasNamedImport "vue" n ds); [exact H|].
  now apply fromDecoratorModule_addNamed.
Qed.

Lemma collapse_collapsed (s : SourceFile) : collapsed (snd (imports.collapse s)).
Proof.
  rewrite collapse_run. unfold collapsed, vueDefaultImports. cbn [snd]. split.
  - apply clean_ensureDefault, removeDecoratorImports_clean.
  - unfold imports.withImports; cbn [importDeclarations].
    rewrite defaultImportCount_ensureDefault. lia.
Qed.

Lemma settled_collapsed (s s' : SourceFile) : settled s s' -> collapsed s -> collapsed s'.
Proof.
  unfold collapsed, vueDefaultImports. intros Hs [Hc Hn]. split.
  - destruct Hs as [->| ->]; [exact Hc|].
    unfold withPropType, imports.withImports, imports.ensureBindings; simpl.
    now apply clean_ensureNamed.
  - now rewrite (settled_defaultImportCount "vue" s s' Hs).
Qed.

(** Collapsing the imports again changes nothing. *)
Lemma collapsed_fixed (s : SourceFile) :
  collapsed s -> imports.collapse s = (Returned tt, s).
Proof.
  unfold collapsed, vueDefaultImports. intros [Hc Hn].
  rewrite collapse_run. f_equal.
  unfold imports.withImports.
  rewrite (removeDecoratorImports_fixed _ Hc).
  unfold imports.ensureDefault. rewrite existsb_default_count.
  destruct (imports.defaultImportCount "vue" (importDeclarations s)); [lia|].
  now destruct s.
Qed.

Lemma decoratorImports_no_default (ds : list ImportDeclaration) :
  forallb imports.fromDecoratorModule ds = true ->
  imports.defaultImportCount "vue" ds = 0.
Proof.
  intros H. rewrite <- defaultImportCount_removeDecoratorImports.
  now rewrite removeDecoratorImports_all.
Qed.

(** [classToObject] touches the imports only by ensuring [PropType]. *)
Lemma classToObject_imports (printNode : ts.Expression -> string)
    (extract : SourceFile -> option Vue.t) (s : SourceFile) :
  exists s1, settled s s1 /\
    importDeclarations (snd (classToObject printNode extract s)) = importDeclarations s1.
Proof.
  destruct (extract s) as [vue|] eqn:E.
  - destruct (synthesizable vue) eqn:H.
    + destruct (classToObject_returns printNode extract s vue E H)
        as (name & pes & des & s1 & _ & Hs & _ & _ & ->).
      exists s1. split; [exact Hs | reflexivity].
    + destruct (classToObject_throws printNode extract s vue E H) as (e & s1 & -> & Hs).
      exists s1. split; [exact Hs | reflexivity].
  - rewrite (classToObject_absent printNode extract s E). exists s. split; [apply settled_refl | reflexivity].
Qed.

Lemma declassify_run (printNode : ts.Expression -> string) (s : SourceFile) :
  index.declassify printNode s
  = classToObject printNode vue_class.extract (snd (imports.collapse s)).
Proof. unfold index.declassify, bind. now rewrite collapse_run. Qed.

(** C6 — One default import of the base framework module.  Whatever the
    transform does to the file, the file ends with as many default imports of
    ['vue'] as it began with, and with one when it began with none: a default
    import is added only where there is none.  So a file whose imports all
    come from the two decorator-convention modules ends with exactly one, and
    a file that already has one ends with that one. *)
Theorem C6_single_default_import (printNode : ts.Expression -> string) (s : SourceFile) :
  let output := snd (index.declassify printNode s) in
  vueDefaultImports output = Nat.max 1 (vueDefaultImports s) /\
  (onlyDecoratorImports s = true -> vueDefaultImports output = 1) /\
  (vueDefaultImports s = 1 -> vueDefaultImports output = 1).
Proof.
  cbv zeta.
  assert (vueDefaultImports (snd (index.declassify printNode s)) = Nat.max 1 (vueDefaultImports s))
    as Hcount.
  { rewrite declassify_run.
    destruct (classToObject_imports printNode vue_class.extract (snd (imports.collapse s)))
      as (s1 & Hs & E).
    unfold vueDefaultImports. rewrite E.
    rewrite (settled_defaultImportCount "vue" _ _ Hs).
    rewrite collapse_run. unfold imports.withImports; cbn [snd importDeclarations].
    now rewrite defaultImportCount_ensureDefault, defaultImportCount_removeDecoratorImports. }
  split; [exact Hcount|]. split.
  - intros H. rewrite Hcount. unfold vueDefaultImports, onlyDecoratorImports in *.
    now rewrite (decoratorImports_no_default _ H).
  - intros H. rewrite Hcount, H. reflexivity.
Qed.

Lemma C6_single_default_import_witness :
  vueDefaultImports (snd (index.declassify examples.printer examples.onlyDecoratorImports)) = 1 /\
  vueDefaultImports (snd (index.declassify examples.printer examples.onlyVueImport)) = 1 /\
  vueDefaultImports (snd (index.declassify examples.printer examples.counterComponent)) = 1.
Proof.
  split; [|split].
  - exact (proj1 (proj2 (C6_single_default_import examples.printer examples.onlyDecoratorImports)) eq_refl).
  - exact (proj2 (proj2 (C6_single_default_import examples.printer examples.onlyVueImport)) eq_refl).
  - exact (proj1 (proj2 (C6_single_default_import examples.printer examples.counterComponent)) eq_refl).
Defined.

(* --------------------------------------------------------------------- *)
(** ** Finding the component class *)
(* --------------------------------------------------------------------- *)

Lemma findComponent_none (k : nat) (ss : list Statement) :
  filter isComponentStatement ss = [] -> findComponent k ss = None.
Proof.
  revert k. induction ss as [|st tl IH]; intros k; simpl; [reflexivity|].
  destruct st as [c| |]; simpl; auto.
  destruct (isComponentClass c); [discriminate | auto].
Qed.

(** The class found is a component class; without it the file has one
    component class less. *)
Lemma findComponent_some (k : nat) (ss : list Statement) (c : ClassDeclaration.t) :
  findComponent k ss = Some c ->
  exists j, ClassDeclaration.getChildIndex c = k + j /\
            List.length (filter isComponentStatement (removeAt j ss))
            = pred (List.length (filter isComponentStatement ss)).
Proof.
  revert k. induction ss as [|st tl IH]; intros k; simpl; [discriminate|].
  assert (forall k', findComponent (S k') tl = Some c ->
            isComponentStatement st = false ->
            exists j, ClassDeclaration.getChildIndex c = k' + j /\
              List.length (filter isComponentStatement (removeAt j (st :: tl)))
              = pred (List.length (filter isComponentStatement tl))) as Hskip.
  { intros k' E Hst. destruct (IH _ E) as (j & Hj & Hlen).
    exists (S j). split; [lia|]. simpl. now rewrite Hst. }
  destruct st as [c0|e|t]; simpl.
  - destruct (isComponentClass c0) eqn:Ec.
    + intros [= <-]. exists 0. split; [simpl; lia | reflexivity].
    + intros E. apply Hskip; [exact E | exact Ec].
  - intros E. now apply Hskip.
  - intros E. now apply Hskip.
Qed.

(** Once its only component class is replaced, a file has none. *)
Lemma extract_replaced (s s1 : SourceFile) (vue : Vue.t) (e : ExportAssignmentStructure) :
  vue_class.extract s = Some vue ->
  componentCount s <= 1 ->
  statements s1 = statements s ->
  vue_class.extract (formatText (addExportAssignment e (remove (Vue.declaration vue) s1)))
  = None.
Proof.
  unfold vue_class.extract, componentCount. intros E Hc Hst.
  destruct (findComponent 0 (statements s)) as [c|] eqn:Ef; [|discriminate].
  injection E as <-.
  destruct (findComponent_some 0 _ _ Ef) as (j & Hj & Hlen). simpl in Hj.
  cbn [formatText addExportAssignment remove statements extractClass Vue.declaration].
  rewrite Hst, Hj, findComponent_none; [reflexivity|].
  rewrite filter_app. simpl. rewrite app_nil_r.
  apply length_zero_iff_nil. lia.
Qed.

Lemma classToObject_idempotent (printNode : ts.Expression -> string) (s s' : SourceFile) :
  componentCount s <= 1 ->
  classToObject printNode vue_class.extract s = (Returned tt, s') ->
  classToObject printNode vue_class.extract s' = (Returned tt, s').
Proof.
  intros Hc Erun.
  destruct (vue_class.extract s) as [vue|] eqn:E.
  - destruct (synthesizable vue) eqn:H.
    + destruct (classToObject_returns printNode _ s vue E H)
        as (name & pes & des & s1 & _ & Hs & _ & _ & Erun').
      rewrite Erun' in Erun. injection Erun as <-.
      apply classToObject_absent.
      apply (extract_replaced s s1 vue); auto using settled_statements.
    + destruct (classToObject_throws printNode _ s vue E H) as (e & s1 & Erun' & _).
      rewrite Erun' in Erun. discriminate.
  - rewrite (classToObject_absent printNode _ s E) in Erun. injection Erun as <-.
    now apply classToObject_absent.
Qed.

(** C3, as stated, fails for the transform as a whole, whatever the printer:
    a file without a component class whose imports come from the
    decorator-convention modules has them collapsed into
    [import Vue from 'vue'] (the first test of the suite). *)
Lemma C3_counterexample :
  ~ (exists printNode : ts.Expression -> string,
       forall s : SourceFile,
         vue_class.extract s = None ->
         index.declassify printNode s = (Returned tt, s)).
Proof.
  intros [printNode H]. specialize (H examples.onlyDecoratorImports eq_refl).
  discriminate H.
Qed.

(** C3, amended — No component class.  When the extractor finds no component
    class, [classToObject] returns without an error and leaves the file as it
    is.  The transform as a whole then does what collapsing the imports does:
    it returns without an error, statements and layout are those of the input,
    and the file is the input itself exactly when no import comes from a
    decorator-convention module and ['vue'] is imported by default. *)
Theorem C3_no_component (printNode : ts.Expression -> string)
    (extract : SourceFile -> option Vue.t) (s : SourceFile) :
  extract s = None ->
  vue_class.extract s = None ->
  classToObject printNode extract s = (Returned tt, s) /\
  index.declassify printNode s = imports.collapse s /\
  fst (index.declassify printNode s) = Returned tt /\
  statements (snd (index.declassify printNode s)) = statements s /\
  layout (snd (index.declassify printNode s)) = layout s /\
  (index.declassify printNode s = (Returned tt, s) <-> collapsed s).
Proof.
  intros E E'. split; [now apply classToObject_absent|].
  assert (index.declassify printNode s = imports.collapse s) as Hrun.
  { rewrite declassify_run. rewrite classToObject_absent.
    - now rewrite collapse_run.
    - rewrite collapse_run. exact E'. }
  split; [exact Hrun|]. rewrite Hrun.
  split; [now rewrite collapse_run|].
  split; [now rewrite collapse_run|].
  split; [now rewrite collapse_run|].
  split.
  - intros Hfix. pose proof (collapse_collapsed s) as Hc.
    rewrite Hfix in Hc. exact Hc.
  - apply collapsed_fixed.
Qed.

Lemma C3_no_component_witness :
  classToObject examples.printer vue_class.extract examples.onlyVueImport
  = (Returned tt, examples.onlyVueImport) /\
  index.declassify examples.printer examples.onlyVueImport
  = (Returned tt, examples.onlyVueImport) /\
  collapsed examples.onlyVueImport.
Proof.
  destruct (C3_no_component examples.printer vue_class.extract examples.onlyVueImport
              eq_refl eq_refl)
    as (Hstep & _ & _ & _ & _ & Hwhole).
  split; [exact Hstep|].
  assert (collapsed examples.onlyVueImport) as Hc by exact (conj eq_refl (le_n 1)).
  split; [exact (proj2 Hwhole Hc) | exact Hc].
Defined.

(** C4, as stated, fails, whatever the printer: of two component classes in
    a file only the first is rewritten, so the second is still there to match,
    and a second run rewrites it. *)
Lemma C4_counterexample :
  ~ (exists printNode : ts.Expression -> string,
       forall s s' : SourceFile,
         index.declassify printNode s = (Returned tt, s') ->
         index.declassify printNode s' = (Returned tt, s')).
Proof.
  intros [printNode H]. specialize (H examples.twoComponents _ eq_refl).
  vm_compute in H. discriminate H.
Qed.

(** C4, amended — Idempotence.  For a file with at most one component class,
    a second run of the transform on the result of a first run that returned
    gives that result again, without an error; so does a second run of
    [classToObject] alone. *)
Theorem C4_idempotent (printNode : ts.Expression -> string) (s s' : SourceFile) :
  componentCount s <= 1 ->
  (classToObject printNode vue_class.extract s = (Returned tt, s') ->
   classToObject printNode vue_class.extract s' = (Returned tt, s')) /\
  (index.declassify printNode s = (Returned tt, s') ->
   index.declassify printNode s' = (Returned tt, s')).
Proof.
  intros Hc. split; [now apply classToObject_idempotent|].
  rewrite declassify_run. intros Erun.
  assert (collapsed s') as Hcol.
  { destruct (classToObject_imports printNode vue_class.extract (snd (imports.collapse s)))
      as (s1 & Hs & Ei).
    rewrite Erun in Ei. cbn [snd] in Ei.
    pose proof (settled_collapsed _ _ Hs (collapse_collapsed s)) as [Hclean Hn].
    unfold collapsed, vueDefaultImports in *. now rewrite Ei. }
  rewrite declassify_run, (collapsed_fixed s' Hcol). cbn [snd].
  apply (classToObject_idempotent printNode (snd (imports.collapse s))); [|exact Erun].
  rewrite collapse_run. exact Hc.
Qed.

Lemma C4_idempotent_witness :
  index.declassify examples.printer (snd (index.declassify examples.printer examples.propsComponent))
  = (Returned tt, snd (index.declassify examples.printer examples.propsComponent)) /\
  classToObject examples.printer vue_class.extract
    (snd (classToObject examples.printer vue_class.extract examples.counterComponent))
  = (Returned tt, snd (classToObject examples.printer vue_class.extract examples.counterComponent)).
Proof.
  split.
  - exact (proj2 (C4_idempotent examples.printer examples.propsComponent _ (le_n 1)) eq_refl).
  - exact (proj1 (C4_idempotent examples.printer examples.counterComponent _ (le_n 1)) eq_refl).
Defined.

(* ===================================================================== *)
(** * Further properties of [vue_object.ts] *)
(* ===================================================================== *)

Import outcomes.

(* --------------------------------------------------------------------- *)
(** ** The [props] member *)
(* --------------------------------------------------------------------- *)

Lemma classPropToObjectProp_descriptor (prop : ClassProp.t) (s : SourceFile) :
  propOk prop = true ->
  exists e s', classPropToObjectProp prop s = (Returned e, s') /\ settled s s' /\
               descriptor prop e.
Proof.
  unfold propOk, annotatedUnlessPrimitive, defaultHasInitializer, isPrimitive, descriptor.
  intros H. apply andb_true_iff in H as [Ht Hd].
  unfold classPropToObjectProp, bind at 1.
  rewrite classPropTypeToObjectPropType_cases.
  unfold classPropOptionsToObjectPropOptions, createDocumentation.
  destruct (PropertyDeclaration.getType (ClassProp.declaration prop));
    simpl in Ht;
    try (destruct (PropertyDeclaration.getTypeNode (ClassProp.declaration prop));
         [|discriminate]);
    destruct (ClassProp.default prop) as [d|];
    try (destruct (PropertyAssignment.getInitializer d) as [v|]; [|discriminate]);
    try destruct (ClassProp.required prop) as [r|];
    munfold; cbn [fst snd];
    destruct (PropertyDeclaration.getJsDocs (ClassProp.declaration prop)) as [|[[c|] ?] ?];
    cbn [comment]; try destruct (js.truthy (Some c));
    cbn [ts.addSyntheticLeadingComment ts.f.createPropertyAssignment
         ts.f.createObjectLiteralExpression ts.f.createIdentifier ts.f.createFalse app];
    eexists _, _; (split; [reflexivity|]);
    (split; [solve [now left | now right]|]);
    eexists _, _, _; split; reflexivity.
Qed.

(** X1 — The [props] member.  When every input field can be synthesized,
    [classPropsToObjectProps] returns the property [props] bound to a
    multi-line object literal with one descriptor per input field, in the
    order of the fields: each is named as its field and bound to a multi-line
    object literal of exactly two members, the first named [type]. *)
Theorem X1_props_entries (vue : Vue.t) (s : SourceFile) :
  forallb propOk (Vue.props vue) = true ->
  exists entries s',
    classPropsToObjectProps vue s
    = (Returned (ts.PropertyAssignment "props"
                   (ts.ObjectLiteralExpression entries true) []), s') /\
    List.length entries = List.length (Vue.props vue) /\
    map ts.elementName entries
    = map (fun prop => PropertyDeclaration.getName (ClassProp.declaration prop))
          (Vue.props vue) /\
    Forall2 descriptor (Vue.props vue) entries.
Proof.
  intros H.
  destruct (mapM_returns classPropToObjectProp propOk settled descriptor
              settled_refl settled_trans classPropToObjectProp_descriptor
              (Vue.props vue) s H) as (ys & s' & E & _ & HP).
  exists ys, s'. split; [|split; [|split]].
  - unfold classPropsToObjectProps. munfold. now rewrite E.
  - symmetry. eapply Forall2_length; eauto.
  - clear E H. induction HP as [|prop e props es Hd _ IH]; [reflexivity|].
    simpl. rewrite IH. destruct Hd as (t & o & c & -> & _). reflexivity.
  - exact HP.
Qed.

Lemma X1_props_entries_witness :
  exists entries s',
    classPropsToObjectProps
      (Vue.mk (ClassDeclaration.mk 0 examples.propsClass) (mkConfig [])
         (flat_map extractProp (classProperties examples.propsClass)) [])
      examples.propsComponent
    = (Returned (ts.PropertyAssignment "props"
                   (ts.ObjectLiteralExpression entries true) []), s') /\
    List.length entries = 4 /\
    map ts.elementName entries = ["message"; "count"; "response"; "onClick"].
Proof.
  destruct (X1_props_entries
              (Vue.mk (ClassDeclaration.mk 0 examples.propsClass) (mkConfig [])
                 (flat_map extractProp (classProperties examples.propsClass)) [])
              examples.propsComponent eq_refl)
    as (entries & s' & E & Hlen & Hnames & _).
  exists entries, s'. auto.
Defined.

(* --------------------------------------------------------------------- *)
(** ** Documentation comments *)
(* --------------------------------------------------------------------- *)

(** [createDocumentation] reads the description of the first block only. *)
Lemma createDocumentation_description (target : ts.ObjectLiteralElementLike)
    (docs : list JSDoc) :
  createDocumentation target docs
  = match description docs with
    | Some d =>
        ts.addSyntheticLeadingComment target (ts.kind (blockComment d))
          (ts.text (blockComment d)) (ts.hasTrailingNewLine (blockComment d))
    | None => target
    end.
Proof.
  unfold createDocumentation, description.
  destruct docs as [|[[c|] ?] ?]; cbn [comment]; try reflexivity.
  destruct (js.truthy (Some c)); reflexivity.
Qed.

(** A string is given by its pieces. *)
Lemma split_injective (sep : ascii) (a b : string) :
  js.split sep a = js.split sep b -> a = b.
Proof.
  intros H. rewrite <- (join_split sep a), <- (join_split sep b). now rewrite H.
Qed.

Lemma prefixed_injective (xs ys : list string) :
  map (fun line => " * " ++ line) xs = map (fun line => " * " ++ line) ys -> xs = ys.
Proof.
  revert ys. induction xs as [|x xs IH]; intros [|y ys]; simpl; try discriminate.
  - reflexivity.
  - intros [= Hx Hrest]. f_equal; auto.
Qed.

(** The description can be read back from the text of the comment. *)
Lemma blockComment_injective (d1 d2 : string) :
  ts.text (blockComment d1) = ts.text (blockComment d2) -> d1 = d2.
Proof.
  intros H. apply (f_equal (js.split js.LF)) in H.
  rewrite !blockComment_lines in H.
  injection H as H. apply app_inv_tail in H.
  apply (split_injective js.LF). now apply prefixed_injective.
Qed.

(** X2 — What of the documentation reaches the output.  A target is
    returned as it is when its field has no JSDoc block or the first block has
    no description (tags only) or an empty one.  On a fresh property, two
    documentations give the same result exactly when their first blocks have
    the same description: blocks after the first and everything of the first
    but its description are left out, and the description itself can be read
    back from the comment. *)
Theorem X2_documentation_kept :
  (forall (target : ts.ObjectLiteralElementLike) (docs : list JSDoc),
     description docs = None -> createDocumentation target docs = target) /\
  (forall (name : string) (value : ts.Expression) (docs1 docs2 : list JSDoc),
     createDocumentation (ts.f.createPropertyAssignment name value) docs1
     = createDocumentation (ts.f.createPropertyAssignment name value) docs2
     <-> description docs1 = description docs2).
Proof.
  split.
  - intros target docs H. now rewrite createDocumentation_description, H.
  - intros name value docs1 docs2. rewrite !createDocumentation_description. split.
    + unfold ts.f.createPropertyAssignment, ts.addSyntheticLeadingComment.
      destruct (description docs1) as [d1|], (description docs2) as [d2|];
        intros H; try discriminate; [|reflexivity].
      apply (f_equal ts.elementComments) in H.
      apply (f_equal (fun cs => match cs with
                                | c :: _ => ts.text c
                                | [] => EmptyString
                                end)) in H.
      f_equal. apply blockComment_injective. exact H.
    + now intros ->.
Qed.

Lemma X2_documentation_kept_witness :
  createDocumentation (ts.f.createPropertyAssignment "old" (ts.Identifier "null"))
    (PropertyDeclaration.getJsDocs examples.old)
  = ts.PropertyAssignment "old" (ts.Identifier "null") [].
Proof.
  exact (proj1 X2_documentation_kept
           (ts.f.createPropertyAssignment "old" (ts.Identifier "null"))
           (PropertyDeclaration.getJsDocs examples.old) eq_refl).
Defined.

(* --------------------------------------------------------------------- *)
(** ** The statements of the file *)
(* --------------------------------------------------------------------- *)






(* --------------------------------------------------------------------- *)
(** ** The imports of the file *)
(* --------------------------------------------------------------------- *)

(** A computation that leaves the file alone maps to one that does. *)
Lemma mapM_state {A B} (g : A -> M B) (xs : list A) :
  (forall x, In x xs -> forall s, snd (g x s) = s) ->
  forall s, snd (mapM g xs s) = s.
Proof.
  induction xs as [|x tl IH]; intros Hg s; simpl; [reflexivity|].
  unfold bind. pose proof (Hg x (or_introl eq_refl) s) as Hx.
  destruct (g x s) as [[y|e] s1]; cbn [snd] in Hx; subst s1; [|reflexivity].
  assert (snd (mapM g tl s) = s) as Htl by (apply IH; intros; apply Hg; now right).
  destruct (mapM g tl s) as [[ys|e] s2]; cbn [snd] in Htl; subst s2; reflexivity.
Qed.

(** The result and the file after an input field, by the kind of its type. *)
Lemma classPropToObjectProp_state (prop : ClassProp.t) (s : SourceFile) :
  snd (classPropToObjectProp prop s)
  = if isPrimitive (PropertyDeclaration.getType (ClassProp.declaration prop))
    then s else withPropType s.
Proof.
  unfold classPropToObjectProp, bind at 1, isPrimitive.
  rewrite classPropTypeToObjectPropType_cases.
  unfold classPropOptionsToObjectPropOptions.
  destruct (PropertyDeclaration.getType (ClassProp.declaration prop));
    cbn [isString isNumber isBoolean orb];
    try destruct (PropertyDeclaration.getTypeNode (ClassProp.declaration prop));
    try reflexivity;
    destruct (ClassProp.default prop) as [d|];
    try destruct (PropertyAssignment.getInitializer d);
    try destruct (ClassProp.required prop);
    reflexivity.
Qed.

Lemma classDataToObjectData_pure (vue : Vue.t) (s s0 : SourceFile) :
  classDataToObjectData vue s = (fst (classDataToObjectData vue s0), s).
Proof.
  unfold classDataToObjectData, bind.
  rewrite (mapM_dataProperty_pure _ s s0).
  destruct (mapM dataProperty (Vue.data vue) s0) as [[ys|e] u]; reflexivity.
Qed.

(** The file after synthesis is the file after the input fields. *)
Lemma objectProperties_state (vue : Vue.t) (s : SourceFile) :
  snd (objectProperties vue s)
  = if named vue then snd (mapM classPropToObjectProp (Vue.props vue) s) else s.
Proof.
  unfold objectProperties, classNameToPropName, named.
  destruct (ClassDeclaration.getName (Vue.declaration vue)) as [name|]; [|reflexivity].
  cbn [isSome orThrow]. unfold bind at 1 2. cbn [ret].
  unfold bind at 1.
  destruct (Vue.props vue) as [|p ps] eqn:Ep; cbn [List.length Nat.ltb Nat.leb].
  - cbn [ret mapM snd]. unfold bind at 1.
    destruct (Vue.data vue) as [|d ds]; cbn [List.length Nat.ltb Nat.leb]; [reflexivity|].
    unfold bind at 1. rewrite (classDataToObjectData_pure vue s s).
    destruct (fst (classDataToObjectData vue s)); reflexivity.
  - unfold bind at 1. unfold classPropsToObjectProps, bind at 1. rewrite Ep.
    destruct (mapM classPropToObjectProp (p :: ps) s) as [[ys|e] s1]; [|reflexivity].
    cbn [ret snd]. unfold bind at 1.
    destruct (Vue.data vue) as [|d ds]; cbn [List.length Nat.ltb Nat.leb]; [reflexivity|].
    unfold bind at 1. rewrite (classDataToObjectData_pure vue s1 s1).
    destruct (fst (classDataToObjectData vue s1)); reflexivity.
Qed.

(** [classToObject] changes the imports as synthesis does. *)
Lemma classToObject_state (printNode : ts.Expression -> string)
    (extract : SourceFile -> option Vue.t) (s : SourceFile)
    (vue : Vue.t) :
  extract s = Some vue ->
  importDeclarations (snd (classToObject printNode extract s))
  = importDeclarations (snd (objectProperties vue s)).
Proof.
  intros E. unfold classToObject. rewrite E. unfold bind at 1.
  destruct (objectProperties vue s) as [[ps|e] s1]; reflexivity.
Qed.

(** X4 — Imports with primitive input fields.  When every input field of
    the component is of type string, number or boolean (or there is none),
    [classToObject] leaves the import statements of the file exactly as they
    were, whether it returns or throws. *)
Theorem X4_imports_untouched (printNode : ts.Expression -> string)
    (extract : SourceFile -> option Vue.t) (s : SourceFile)
    (vue : Vue.t) :
  extract s = Some vue ->
  allPrimitive vue = true ->
  importDeclarations (snd (classToObject printNode extract s)) = importDeclarations s.
Proof.
  intros E H. rewrite (classToObject_state printNode extract s vue E), objectProperties_state.
  destruct (named vue); [|reflexivity].
  rewrite mapM_state; [reflexivity|].
  intros prop Hin s0. rewrite classPropToObjectProp_state.
  unfold allPrimitive in H. rewrite forallb_forall in H. now rewrite (H prop Hin).
Qed.

Lemma X4_imports_untouched_witness :
  option_map (fun vue => List.length (Vue.props vue))
    (vue_class.extract primitivePropsComponent) = Some 2 /\
  importDeclarations
    (snd (classToObject examples.printer vue_class.extract primitivePropsComponent))
  = importDeclarations primitivePropsComponent.
Proof.
  split; [reflexivity|].
  exact (X4_imports_untouched examples.printer vue_class.extract
           primitivePropsComponent _ eq_refl eq_refl).
Defined.

(** The file after the input fields of a component that can be synthesized:
    the [PropType] import is ensured as soon as one field is not primitive. *)
Lemma mapM_classPropToObjectProp_state (props : list ClassProp.t) :
  forallb propOk props = true ->
  forall s,
    snd (mapM classPropToObjectProp props s)
    = if forallb (fun prop =>
                    isPrimitive (PropertyDeclaration.getType (ClassProp.declaration prop)))
                 props
      then s else withPropType s.
Proof.
  induction props as [|p tl IH]; intros H s; [reflexivity|].
  simpl in H. apply andb_true_iff in H as [Hp Ht].
  destruct (classPropToObjectProp_returns p s Hp) as (e & s1 & E & _ & _).
  pose proof (classPropToObjectProp_state p s) as Hs1. rewrite E in Hs1. cbn [snd] in Hs1.
  pose proof (IH Ht s1) as Htl.
  cbn [mapM forallb]. unfold bind at 1. rewrite E. unfold bind at 1.
  destruct (mapM classPropToObjectProp tl s1) as [[ys|x] s2]; cbn [snd ret] in *;
    rewrite Htl, Hs1;
    destruct (isPrimitive (PropertyDeclaration.getType (ClassProp.declaration p)));
    cbn [andb]; try reflexivity;
    destruct (forallb (fun prop =>
                         isPrimitive
                           (PropertyDeclaration.getType (ClassProp.declaration prop)))
                      tl);
    auto using withPropType_idempotent.
Qed.

(** X5 — Imports with a non-primitive input field.  When [classToObject]
    rewrites a component one of whose input fields is not of type string,
    number or boolean, the file ends with [PropType] imported by name from
    ['vue'], and its import statements are those a single
    [imports.ensure(source, 'vue', { named: ['PropType'] })] gives, however
    many such fields there are. *)
Theorem X5_proptype_imported (printNode : ts.Expression -> string)
    (extract : SourceFile -> option Vue.t) (s : SourceFile)
    (vue : Vue.t) :
  extract s = Some vue ->
  synthesizable vue = true ->
  allPrimitive vue = false ->
  exists s',
    classToObject printNode extract s = (Returned tt, s') /\
    importDeclarations s'
    = importDeclarations
        (snd (imports.ensure "vue" (imports.mkBindings None ["PropType"]) s)) /\
    imports.hasNamedImport "vue" "PropType" (importDeclarations s') = true.
Proof.
  intros E H Hnp.
  destruct (classToObject_returns printNode extract s vue E H)
    as (name & pes & des & s1 & _ & _ & _ & _ & Erun).
  eexists. split; [exact Erun|].
  pose proof (classToObject_state printNode extract s vue E) as Hst.
  rewrite Erun in Hst. cbn [snd] in Hst. rewrite Hst, objectProperties_state.
  unfold synthesizable in H.
  apply andb_true_iff in H as [H _]. apply andb_true_iff in H as [Hn Hp].
  rewrite Hn, (mapM_classPropToObjectProp_state _ Hp).
  unfold allPrimitive in Hnp. rewrite Hnp.
  split; [reflexivity | apply hasNamedImport_withPropType].
Qed.

Lemma X5_proptype_imported_witness :
  exists s',
    classToObject examples.printer vue_class.extract examples.propsComponent = (Returned tt, s') /\
    importDeclarations s' = [mkImport "vue" None ["PropType"]] /\
    imports.hasNamedImport "vue" "PropType" (importDeclarations s') = true.
Proof.
  exact (X5_proptype_imported examples.printer vue_class.extract examples.propsComponent _
           eq_refl eq_refl eq_refl).
Defined.

(* --------------------------------------------------------------------- *)
(** ** What is thrown *)
(* --------------------------------------------------------------------- *)

Section FirstFailure.
Context {A B : Type}.
Variable g : A -> M B.
Variable ok : A -> bool.
Variable err : A -> Exception.
Hypothesis g_returns : forall x s, ok x = true ->
  exists y s', g x s = (Returned y, s').
Hypothesis g_throws : forall x s, ok x = false ->
  exists s', g x s = (Thrown (err x), s').

(** Mapping stops at the first element that throws, with its exception. *)
Lemma mapM_first_failure xs : forall x s,
  find (fun a => negb (ok a)) xs = Some x ->
  exists s', mapM g xs s = (Thrown (err x), s').
Proof.
  induction xs as [|a tl IH]; intros x s; simpl; [discriminate|].
  destruct (ok a) eqn:Ha; simpl.
  - intros Hf. destruct (g_returns a s Ha) as (y & s1 & E1).
    destruct (IH x s1 Hf) as (s2 & E2).
    exists s2. unfold bind. now rewrite E1, E2.
  - intros [= <-]. destruct (g_throws a s Ha) as (s1 & E1).
    exists s1. unfold bind. now rewrite E1.
Qed.

Lemma find_failure_none xs :
  find (fun a => negb (ok a)) xs = None -> forallb ok xs = true.
Proof.
  induction xs as [|a tl IH]; simpl; [reflexivity|].
  destruct (ok a); simpl; [exact IH | discriminate].
Qed.

Lemma find_failure_some xs :
  forallb ok xs = false -> exists x, find (fun a => negb (ok a)) xs = Some x.
Proof.
  induction xs as [|a tl IH]; simpl; [discriminate|].
  destruct (ok a); simpl; [exact IH | eauto].
Qed.

End FirstFailure.

Lemma classPropToObjectProp_exception (prop : ClassProp.t) (s : SourceFile) :
  propOk prop = false ->
  exists s', classPropToObjectProp prop s = (Thrown (propException prop), s').
Proof.
  unfold propOk, propException, annotatedUnlessPrimitive, defaultHasInitializer,
    isPrimitive.
  intros H.
  unfold classPropToObjectProp, bind at 1.
  rewrite classPropTypeToObjectPropType_cases.
  unfold classPropOptionsToObjectPropOptions.
  destruct (PropertyDeclaration.getType (ClassProp.declaration prop));
    cbn [isString isNumber isBoolean orb isSome] in *;
    try destruct (PropertyDeclaration.getTypeNode (ClassProp.declaration prop));
    cbn [isSome orb andb] in *;
    try (eexists; reflexivity);
    (destruct (ClassProp.default prop) as [d|]; [|discriminate]);
    (destruct (PropertyAssignment.getInitializer d); [discriminate|]);
    munfold; eexists; reflexivity.
Qed.

Lemma classDataToObjectData_exception (vue : Vue.t) (s : SourceFile) :
  forallb dataOk (Vue.data vue) = false ->
  classDataToObjectData vue s = (Thrown ExpectedInitializer, s).
Proof.
  intros H.
  destruct (find_failure_some dataOk _ H) as (d & Hd).
  destruct (mapM_first_failure dataProperty dataOk (fun _ => ExpectedInitializer))
    with (xs := Vue.data vue) (x := d) (s := s) as (s' & E); auto.
  - intros x s0 Hx. destruct (dataProperty_returns x s0 Hx) as (y & s1 & ? & _). eauto.
  - intros x s0 Hx. unfold dataProperty. unfold dataOk in Hx.
    destruct (PropertyDeclaration.getInitializer x); [discriminate|].
    eexists. reflexivity.
  - rewrite (classDataToObjectData_pure vue s s).
    unfold classDataToObjectData, bind. now rewrite E.
Qed.

(** X6 — The state fields and the file.  [classDataToObjectData] never
    changes the file and its outcome is the same on every file: the [data]
    method when every state field has an initializer, and otherwise the
    exception of the initializer lookup. *)
Theorem X6_data_reads_no_file (vue : Vue.t) (s s0 : SourceFile) :
  snd (classDataToObjectData vue s) = s /\
  fst (classDataToObjectData vue s) = fst (classDataToObjectData vue s0) /\
  if forallb dataOk (Vue.data vue)
  then exists entries,
         fst (classDataToObjectData vue s)
         = Returned (ts.MethodDeclaration "data" []
                       [ts.ReturnStatement (ts.ObjectLiteralExpression entries true)])
  else fst (classDataToObjectData vue s) = Thrown ExpectedInitializer.
Proof.
  split; [|split].
  - now rewrite (classDataToObjectData_pure vue s s).
  - now rewrite (classDataToObjectData_pure vue s s0).
  - destruct (forallb dataOk (Vue.data vue)) eqn:H.
    + destruct (classDataToObjectData_returns vue H) as (entries & E & _).
      exists entries. now rewrite E.
    + now rewrite (classDataToObjectData_exception vue s H).
Qed.

Lemma objectProperties_diagnosis (vue : Vue.t) (s : SourceFile) :
  match diagnosis vue with
  | Some e => exists s', objectProperties vue s = (Thrown e, s')
  | None => exists ps s', objectProperties vue s = (Returned ps, s')
  end.
Proof.
  unfold diagnosis.
  destruct (named vue) eqn:Hn; cbn [negb].
  2:{ unfold named in Hn. unfold objectProperties, classNameToPropName.
      destruct (ClassDeclaration.getName (Vue.declaration vue)); [discriminate|].
      eexists. reflexivity. }
  destruct (find (fun prop => negb (propOk prop)) (Vue.props vue)) as [p|] eqn:Hf.
  - destruct (mapM_first_failure classPropToObjectProp propOk propException)
      with (xs := Vue.props vue) (x := p) (s := s) as (s' & E); auto.
    + intros x s0 Hx. destruct (classPropToObjectProp_returns x s0 Hx) as (y & s1 & ? & _).
      eauto.
    + apply classPropToObjectProp_exception.
    + exists s'. unfold named in Hn. unfold objectProperties, classNameToPropName.
      destruct (ClassDeclaration.getName (Vue.declaration vue)); [|discriminate].
      munfold. unfold classPropsToObjectProps. munfold.
      destruct (Vue.props vue) as [|q qs]; [discriminate Hf|].
      simpl. simpl in E. now rewrite E.
  - pose proof (find_failure_none propOk _ Hf) as Hp.
    destruct (forallb dataOk (Vue.data vue)) eqn:Hd.
    + assert (synthesizable vue = true) as H
          by (unfold synthesizable; now rewrite Hn, Hp, Hd).
      destruct (objectProperties_returns vue s H) as (? & ? & ? & s' & _ & E & _).
      eauto.
    + destruct (classPropsToObjectProps_returns vue s Hp) as (pes & s' & Ep & _ & _).
      unfold named in Hn. unfold objectProperties, classNameToPropName.
      destruct (ClassDeclaration.getName (Vue.declaration vue)); [|discriminate].
      munfold.
      destruct (Vue.data vue) as [|d ds] eqn:Edata; [discriminate Hd|].
      rewrite <- Edata in Hd.
      destruct (Vue.props vue) as [|q qs]; simpl.
      * rewrite (classDataToObjectData_exception vue s Hd). eauto.
      * rewrite Ep, (classDataToObjectData_exception vue s' Hd). eauto.
Qed.

(** X7 — Which exception.  What [classToObject] throws on a component is
    decided in the order of the lookups: a class without a name gives the
    name's exception whatever the fields are; otherwise the first input field
    that cannot be synthesized gives the exception of its type annotation if
    that is what it lacks, else that of its [default]'s initializer; otherwise
    a state field without initializer gives the initializer's exception;
    otherwise [classToObject] returns. *)
Theorem X7_which_exception (printNode : ts.Expression -> string)
    (extract : SourceFile -> option Vue.t) (s : SourceFile)
    (vue : Vue.t) :
  extract s = Some vue ->
  match diagnosis vue with
  | Some e => exists s', classToObject printNode extract s = (Thrown e, s')
  | None => exists s', classToObject printNode extract s = (Returned tt, s')
  end.
Proof.
  intros E. pose proof (objectProperties_diagnosis vue s) as H.
  unfold classToObject. rewrite E.
  destruct (diagnosis vue) as [e|]; unfold bind at 1.
  - destruct H as (s' & Hrun). rewrite Hrun. eauto.
  - destruct H as (ps & s' & Hrun). rewrite Hrun. munfold. eauto.
Qed.

Lemma X7_which_exception_witness :
  (exists s',
     classToObject examples.printer (fun _ => Some pendingVue) examples.counterComponent
     = (Thrown ExpectedInitializer, s')) /\
  (exists s',
     classToObject examples.printer vue_class.extract examples.untypedComponent
     = (Thrown ExpectedTypeNode, s')) /\
  (exists s',
     classToObject examples.printer vue_class.extract examples.anonymousComponent
     = (Thrown ExpectedName, s')).
Proof.
  split; [|split].
  - exact (X7_which_exception examples.printer (fun _ => Some pendingVue) examples.counterComponent _
             eq_refl).
  - exact (X7_which_exception examples.printer vue_class.extract examples.untypedComponent _ eq_refl).
  - exact (X7_which_exception examples.printer vue_class.extract examples.anonymousComponent _ eq_refl).
Defined.

(* --------------------------------------------------------------------- *)
(** ** What of the class is left *)
(* --------------------------------------------------------------------- *)




